(** * PyEMMA [setup.py]: the conditional native-extension build orchestrator

    A shallow embedding of the decision logic of [setup.py]: the extension
    builder [extensions()], the [sdist] command override, and the
    module-level branch on [sys.argv] that decides whether build-time
    dependencies and extension modules are declared at all.

    Python strings are [string], lists are [list], the [metadata] dict is a
    [gmap string pyval].  Everything the script reads from its surroundings
    (which imports succeed, which paths exist, what the compiler probe says,
    how a subprocess exits, what the external translator returns) is a field
    of the record [Env]; a computation is a function from [Env] to the trace
    of its observable actions and either a value or a raised exception. *)

From stdpp Require Import base strings list gmap.
From Stdlib Require Import ZArith.
From Stdlib Require Import Ascii.

Local Open Scope string_scope.
Local Open Scope list_scope.

(** ** Python string primitives used by the script *)

Module PyStr.

(** [old in s] *)
Fixpoint contains (old s : string) : bool :=
  String.prefix old s ||
  match s with
  | EmptyString => false
  | String _ s' => contains old s'
  end.

(** [s.startswith(p)] *)
Definition startswith (s p : string) : bool := String.prefix p s.

(** [s.endswith(p)]: [p] is a prefix of the tail of [s] that has the
    length of [p]. *)
Fixpoint endswith (s p : string) : bool :=
  String.eqb s p ||
  match s with
  | EmptyString => false
  | String _ s' => endswith s' p
  end.

(** [new.join(list(s))] followed by one more [new]: the part of
    [s.replace("", new)] after the leading [new]. *)
Fixpoint intersperse (new s : string) : string :=
  match s with
  | EmptyString => EmptyString
  | String c s' => String c (new +:+ intersperse new s')
  end.

(** The scan of [str.replace] for a non-empty [old]: left to right, at
    each position either an occurrence of [old] starts, is replaced by
    [new] and its remaining [length old - 1] characters are skipped, or
    the character is copied. *)
Fixpoint replace_from (old new : string) (skip : nat) (s : string) : string :=
  match s with
  | EmptyString => EmptyString
  | String c s' =>
      match skip with
      | S k => replace_from old new k s'
      | O =>
          if String.prefix old s
          then new +:+ replace_from old new (pred (String.length old)) s'
          else String c (replace_from old new 0 s')
      end
  end.

(** [s.replace(old, new)]: every non-overlapping occurrence, leftmost
    first. *)
Definition replace (old new s : string) : string :=
  match old with
  | EmptyString => new +:+ intersperse new s
  | _ => replace_from old new 0 s
  end.

(** The scan of [str.split(sep)] for a non-empty [sep]; the head of the
    result is the field being read. *)
Fixpoint split_from (sep : string) (skip : nat) (s : string) : list string :=
  match s with
  | EmptyString => [EmptyString]
  | String c s' =>
      match skip with
      | S k => split_from sep k s'
      | O =>
          if String.prefix sep s
          then EmptyString :: split_from sep (pred (String.length sep)) s'
          else
            match split_from sep 0 s' with
            | w :: ws => String c w :: ws
            | [] => [String c EmptyString]
            end
      end
  end.

(** [s.split(sep)]; Python raises [ValueError] on an empty separator,
    here [None]. *)
Definition split (sep s : string) : option (list string) :=
  match sep with
  | EmptyString => None
  | _ => Some (split_from sep 0 s)
  end.

(** [template.format(name=value)] for a template whose only brace
    construct is the replacement field [{name}]. *)
Definition format_field (template name value : string) : string :=
  replace ("{" +:+ name +:+ "}") value template.

End PyStr.

(** ** [os.path] (the POSIX flavour) *)

Module OsPath.

Definition is_sep (c : Ascii.ascii) : bool := Ascii.eqb c "/"%char.

(** [p[:p.rfind('/') + 1]] *)
Fixpoint head_upto_sep (p : string) : string :=
  match p with
  | EmptyString => EmptyString
  | String c p' =>
      if is_sep c || PyStr.contains "/" p'
      then String c (head_upto_sep p')
      else EmptyString
  end.

Fixpoint all_sep (p : string) : bool :=
  match p with
  | EmptyString => true
  | String c p' => is_sep c && all_sep p'
  end.

(** [p.rstrip('/')] *)
Fixpoint rstrip_sep (p : string) : string :=
  match p with
  | EmptyString => EmptyString
  | String c p' =>
      let r := rstrip_sep p' in
      if is_sep c && String.eqb r EmptyString then EmptyString else String c r
  end.

(** [os.path.dirname(p)] *)
Definition dirname (p : string) : string :=
  let head := head_upto_sep p in
  if negb (String.eqb head EmptyString) && negb (all_sep head)
  then rstrip_sep head
  else head.

(** One step of the loop of [os.path.join]. *)
Definition join2 (path b : string) : string :=
  if PyStr.startswith b "/" then b
  else if String.eqb path EmptyString || PyStr.endswith path "/" then path +:+ b
  else path +:+ "/" +:+ b.

(** [os.path.join(a, *p)] *)
Definition join (a : string) (p : list string) : string := fold_left join2 p a.

End OsPath.

(** ** Data model *)

(** A [setuptools.Extension]: the attributes the script passes or touches.
    Every list attribute is owned by its descriptor: the constructor is
    given a fresh list literal or creates an empty list ([x or []]), so the
    in-place [+=] of the script is a functional update of the field; the
    section on object identity below makes the lists objects and
    [openmp_loop_on_fresh] proves this reading of the loop. *)
Record Extension := mkExtension {
  name : string;
  sources : list string;
  include_dirs : list string;
  define_macros : list (string * option string);
  libraries : list string;
  library_dirs : list string;
  extra_compile_args : list string;
  extra_link_args : list string;
  language : option string
}.

Definition set_sources (e : Extension) (v : list string) : Extension :=
  mkExtension (name e) v (include_dirs e) (define_macros e) (libraries e)
    (library_dirs e) (extra_compile_args e) (extra_link_args e) (language e).

Definition set_extra_compile_args (e : Extension) (v : list string) : Extension :=
  mkExtension (name e) (sources e) (include_dirs e) (define_macros e) (libraries e)
    (library_dirs e) v (extra_link_args e) (language e).

Definition set_extra_link_args (e : Extension) (v : list string) : Extension :=
  mkExtension (name e) (sources e) (include_dirs e) (define_macros e) (libraries e)
    (library_dirs e) (extra_compile_args e) v (language e).

Definition set_define_macros (e : Extension) (v : list (string * option string)) : Extension :=
  mkExtension (name e) (sources e) (include_dirs e) v (libraries e)
    (library_dirs e) (extra_compile_args e) (extra_link_args e) (language e).

(** Values stored in the [metadata] dict. *)
Inductive pyval :=
| VStr (s : string)
| VBool (b : bool)
| VList (l : list string)
| VDict (d : gmap string (list string))
| VCmdclass                 (* the dict returned by [get_cmdclass()] *)
| VLazyExtensions.          (* [lazy_cythonize(callback=extensions)] *)

Inductive exn :=
| ImportError (module : string)
| AssertionError
| CalledProcessError (returncode : Z) (cmd : list string)
| OSError
| SystemExit (code : Z)
| KeyError (key : string)
| TypeError
| ValueError
| ExternalError (msg : string).   (* raised by a collaborator outside the script *)

Inductive result (A : Type) :=
| Ok (a : A)
| Raise (e : exn).
Arguments Ok {A} a.
Arguments Raise {A} e.

(** How a child process ends. *)
Inductive proc_outcome :=
| Exited (returncode : Z)
| NotStarted.               (* the executable could not be run *)

(** What the script reads from its surroundings. *)
Record Env := mkEnv {
  importable : string -> bool;             (* does [import m] succeed *)
  path_exists : string -> bool;            (* [os.path.exists] *)
  script_file : string;                    (* [__file__] *)
  platform : string;                       (* [sys.platform] *)
  detect_openmp : bool * bool;             (* [setup_util.detect_openmp()] *)
  mdtraj_include_dir : string;             (* [mdtraj.capi()['include_dir']] *)
  mdtraj_lib_dir : string;                 (* [mdtraj.capi()['lib_dir']] *)
  numpy_include : string;                  (* [numpy.get_include()] *)
  cythonize : list Extension -> result (list Extension);
  run_process : list string -> proc_outcome;
  base_sdist_run : result unit;            (* [sdist_class.run(self)] *)
  base_command_run : string -> result unit;
  pytest_main : list string -> Z
}.

(** Observable actions, in the order they happen. *)
Inductive event :=
| Imported (module : string)
| Warned (msg : string)
| Printed (msg : string)
| BuilderInvoked                           (* [extensions()] is entered *)
| Cythonized (exts : list Extension)       (* [cythonize(exts)] is called *)
| ProcessRun (argv : list string)          (* [subprocess.check_call(argv)] *)
| BaseSdistRun                             (* [sdist_class.run(self)] *)
| BaseCommandRun (command : string)
| PytestRun (args : list string)
| SetupCalled (metadata : gmap string pyval).

(** ** The effect monad: environment, trace, exceptions *)

Definition M (A : Type) : Type := Env -> list event * result A.

Definition ret {A} (a : A) : M A := fun _ => ([], Ok a).

Definition bind {A B} (m : M A) (k : A -> M B) : M B :=
  fun env =>
    match m env with
    | (t, Ok a) => let '(t', r) := k a env in (t ++ t', r)
    | (t, Raise e) => (t, Raise e)
    end.

Declare Scope py_scope.
Delimit Scope py_scope with py.
Notation "x <- m ;; k" := (bind m (fun x => k))
  (at level 100, m at next level, right associativity) : py_scope.
Notation "m ;; k" := (bind m (fun _ => k))
  (at level 100, right associativity) : py_scope.
Local Open Scope py_scope.

Definition ask {A} (f : Env -> A) : M A := fun env => ([], Ok (f env)).
Definition tell (ev : event) : M unit := fun _ => ([ev], Ok tt).
Definition raise {A} (e : exn) : M A := fun _ => ([], Raise e).

(** [try: body  except ImportError: handler] *)
Definition except_ImportError {A} (body handler : M A) : M A :=
  fun env =>
    match body env with
    | (t, Raise (ImportError _)) => let '(t', r) := handler env in (t ++ t', r)
    | other => other
    end.

Definition warn (msg : string) : M unit := tell (Warned msg).
Definition print (msg : string) : M unit := tell (Printed msg).

(** [import m] / [from m import ...] *)
Definition import (m : string) : M unit :=
  ok <- ask (fun env => importable env m) ;;
  if ok then tell (Imported m) else raise (ImportError m).

(** [assert c] *)
Definition assert (c : bool) : M unit :=
  if c then ret tt else raise AssertionError.

(** [subprocess.check_call(argv)] *)
Definition check_call (argv : list string) : M unit :=
  tell (ProcessRun argv) ;;
  out <- ask (fun env => run_process env argv) ;;
  match out with
  | Exited 0%Z => ret tt
  | Exited rc => raise (CalledProcessError rc argv)
  | NotStarted => raise OSError
  end.

(** A call into a collaborator whose outcome the environment fixes. *)
Definition external {A} (f : Env -> result A) : M A :=
  fun env => ([], f env).

(** [for x in l: body x] *)
Fixpoint for_each {A} (l : list A) (body : A -> M unit) : M unit :=
  match l with
  | [] => ret tt
  | x :: l' => body x ;; for_each l' body
  end.

(** ** The extension builder: [extensions()] *)

(** [Extension(name, sources, include_dirs, language, libraries,
    library_dirs, extra_compile_args)]: the keywords the script uses; the
    constructor defaults [define_macros] and [extra_link_args] to fresh
    empty lists. *)
Definition new_Extension (nm : string) (srcs incs : list string)
    (lang : option string) (libs lib_dirs compile_args : list string) : Extension :=
  mkExtension nm srcs incs [] libs lib_dirs compile_args [] lang.

(** The translator probe at the head of [extensions()]. *)
Definition probe_cython : M bool :=
  except_ImportError
    (import "Cython.Build" ;; ret true)
    (warn "Cython not found. Using pre cythonized files." ;; ret false).

(** [pybind_inc], with [os.path] in its POSIX flavour.  On Windows
    [os.path] is [ntpath], with drives and a second separator: what is
    proved about the value of this path is stated for the other platforms,
    and everything else takes the path as it comes. *)
Definition pybind_inc (file : string) : string :=
  OsPath.join (OsPath.dirname file) ["pybind11"; "include"].

(** The four descriptors, as assembled before any adjustment. *)
Definition assemble (mdtraj_inc mdtraj_lib np_inc pybind lib_prefix : string)
    : list Extension :=
  let clustering_module :=
    new_Extension "pyemma.coordinates.clustering._ext"
      ["pyemma/coordinates/clustering/src/clustering_module.cpp"]
      [mdtraj_inc; np_inc; pybind; "pyemma/coordinates/clustering/include"]
      (Some "c++")
      [lib_prefix +:+ "theobald"]
      [mdtraj_lib]
      ["-std=c++11"; "-O3"; "-fvisibility=hidden"] in
  let covar_module :=
    new_Extension "pyemma._ext.variational.estimators.covar_c._covartools"
      ["pyemma/_ext/variational/estimators/covar_c/covartools.cpp"]
      ["pyemma/_ext/variational/estimators/covar_c/"; np_inc; pybind]
      None [] []
      ["-std=c++11"; "-O3"; "-fvisibility=hidden"] in
  let eig_qr_module :=
    new_Extension "pyemma._ext.variational.solvers.eig_qr.eig_qr"
      ["pyemma/_ext/variational/solvers/eig_qr/eig_qr.pyx"]
      ["pyemma/_ext/variational/solvers/eig_qr/"; np_inc]
      None [] []
      ["-std=c99"; "-O3"] in
  let orderedset :=
    new_Extension "pyemma._ext.orderedset._orderedset"
      ["pyemma/_ext/orderedset/_orderedset.pyx"]
      [np_inc]
      None [] []
      ["-O3"] in
  [] ++ [clustering_module; covar_module; eig_qr_module; orderedset].

(** The branch [if not USE_CYTHON]: every source of every descriptor goes
    through [s.replace('.pyx', '.c')]. *)
Definition use_pregenerated_c (exts : list Extension) : list Extension :=
  map (fun e => set_sources e (map (PyStr.replace ".pyx" ".c") (sources e))) exts.

(** The body of [if openmp_enabled], after the warning. *)
Definition add_openmp (needs_gomp : bool) (exts : list Extension) : list Extension :=
  let omp_compiler_args := ["-fopenmp"] in
  let omp_libraries := if needs_gomp then ["-lgomp"] else [] in
  let omp_defines := [("USE_OPENMP", @None string)] in
  map (fun e =>
         let e := set_extra_compile_args e (extra_compile_args e ++ omp_compiler_args) in
         let e := set_extra_link_args e (extra_link_args e ++ omp_libraries) in
         set_define_macros e (define_macros e ++ omp_defines))
      exts.

(** The source-form step: fall back to the pre-generated files, or hand
    the descriptors to the translator. *)
Definition resolve_sources (USE_CYTHON : bool) (exts : list Extension)
    : M (list Extension) :=
  if negb USE_CYTHON then ret (use_pregenerated_c exts)
  else tell (Cythonized exts) ;; external (fun env => cythonize env exts).

(** The feature step. *)
Definition inject_openmp (openmp_enabled needs_gomp : bool) (exts : list Extension)
    : M (list Extension) :=
  if openmp_enabled
  then warn "enabled openmp" ;; ret (add_openmp needs_gomp exts)
  else ret exts.

(** From [exts = []] to [return exts]: the descriptors are assembled,
    their source form is resolved and the parallel feature is added. *)
Definition build_descriptors (USE_CYTHON openmp_enabled needs_gomp : bool)
    (np_inc pybind : string) : M (list Extension) :=
  plat <- ask platform ;;
  let lib_prefix := if PyStr.startswith plat "win" then "lib" else "" in
  mdtraj_inc <- ask mdtraj_include_dir ;;
  mdtraj_lib <- ask mdtraj_lib_dir ;;
  let exts := assemble mdtraj_inc mdtraj_lib np_inc pybind lib_prefix in
  exts <- resolve_sources USE_CYTHON exts ;;
  inject_openmp openmp_enabled needs_gomp exts.

(** [pybind_inc = os.path.join(...)] and [assert os.path.exists(pybind_inc)] *)
Definition check_pybind : M string :=
  file <- ask script_file ;;
  let pybind := pybind_inc file in
  present <- ask (fun env => path_exists env pybind) ;;
  assert present ;;
  ret pybind.

(** [extensions()] after the translator probe.  [setup_util] is the
    script's own module and was imported at the top of the script, so
    [from setup_util import detect_openmp] is not an import that can
    fail here. *)
Definition extensions_body (USE_CYTHON : bool) : M (list Extension) :=
  omp <- ask detect_openmp ;;
  let openmp_enabled := fst omp in
  let needs_gomp := snd omp in
  import "mdtraj" ;;
  import "numpy" ;;
  np_inc <- ask numpy_include ;;
  pybind <- check_pybind ;;
  build_descriptors USE_CYTHON openmp_enabled needs_gomp np_inc pybind.

Definition extensions : M (list Extension) :=
  tell BuilderInvoked ;;
  USE_CYTHON <- probe_cython ;;
  extensions_body USE_CYTHON.

(** ** Command overrides: [get_cmdclass()] *)

(** The [try]/[except ImportError] statement of [sdist.run]. *)
Definition sdist_cythonize : M unit :=
  except_ImportError
    (import "Cython.Build" ;;
     print "cythonizing sources" ;;
     exts <- extensions ;;
     tell (Cythonized exts) ;;
     _ <- external (fun env => cythonize env exts) ;;
     ret tt)
    (warn "sdist cythonize failed").

(** [sdist.run] *)
Definition sdist_run : M unit :=
  on_git <- ask (fun env => path_exists env ".git") ;;
  if negb on_git
  then print "Not on git, can not create source distribution"
  else
    sdist_cythonize ;;
    tell BaseSdistRun ;;
    external base_sdist_run.

(** [PyTest.run_tests], with [pytest_args] as [initialize_options] sets
    them unless the user overrides the option. *)
Definition run_tests (pytest_args : list string) : M unit :=
  import "pytest" ;;
  tell (PytestRun pytest_args) ;;
  errno <- ask (fun env => pytest_main env pytest_args) ;;
  raise (SystemExit errno).

(** ** The module level of the script *)

(** The line feed, the separator of [__doc__.split("\n")]. *)
Definition LF : string := String (Ascii.ascii_of_nat 10) EmptyString.

Definition DOC : string :=
"EMMA: Emma's Markov Model Algorithms

EMMA is an open source collection of algorithms implemented mostly in
`NumPy <http://www.numpy.org/>`_ and `SciPy <http://www.scipy.org>`_
to analyze trajectories generated from any kind of simulation
(e.g. molecular trajectories) via Markov state models (MSM).

".

Definition CLASSIFIERS : string :=
"Development Status :: 5 - Production/Stable
Environment :: Console
Environment :: MacOS X
Intended Audience :: Science/Research
License :: OSI Approved :: GNU Lesser General Public License v3 or later (LGPLv3+)
Natural Language :: English
Operating System :: MacOS :: MacOS X
Operating System :: POSIX
Operating System :: Microsoft :: Windows
Programming Language :: Python :: 2.7
Programming Language :: Python :: 3
Topic :: Scientific/Engineering :: Bio-Informatics
Topic :: Scientific/Engineering :: Chemistry
Topic :: Scientific/Engineering :: Mathematics
Topic :: Scientific/Engineering :: Physics

".

Definition DOCLINES : list string := default [] (PyStr.split LF DOC).

(** The [metadata] dict as it stands before the branch on [sys.argv].
    The README text, the version string and the package list come from
    outside the script. *)
Definition metadata0 (readme version : string) (packages : list string)
    : gmap string pyval :=
  <["requires" := VList ["numpy"; "scipy"]]>
  (list_to_map [
    ("name", VStr "pyEMMA");
    ("maintainer", VStr "Martin K. Scherer");
    ("maintainer_email", VStr "m.scherer@fu-berlin.de");
    ("author", VStr "The Emma team");
    ("author_email", VStr "info@emma-project.org");
    ("url", VStr "http://github.com/markovmodel/PyEMMA");
    ("license", VStr "LGPLv3+");
    ("description", VStr (default "" (head DOCLINES)));
    ("long_description", VStr readme);
    ("version", VStr version);
    ("platforms", VList ["Windows"; "Linux"; "Solaris"; "Mac OS-X"; "Unix"]);
    ("classifiers",
      VList (filter (fun c => c <> "") (default [] (PyStr.split LF CLASSIFIERS))));
    ("keywords", VStr "Markov State Model Algorithms");
    ("packages", VList packages);
    ("package_data", VDict {[ "pyemma" := ["pyemma.cfg"] ]});
    ("cmdclass", VCmdclass);
    ("tests_require", VList ["pytest"]);
    ("install_requires",
      VList ["bhmm>=0.6,<0.7"; "decorator>=4.0.0"; "matplotlib"; "mdtraj>=1.8.0";
             "msmtools>=1.2"; "pathos"; "progress-reporter"; "psutil>=3.1.1";
             "pyyaml"; "scipy>=0.11"; "thermotools>=0.2.6"; "numpy>=1.7.0"]);
    ("zip_safe", VBool false)
  ]).

(** The condition of the [if] under [# not installing?]. *)
Definition metadata_only (argv : list string) : bool :=
  (length argv =? 1)%nat ||
  ((2 <=? length argv)%nat &&
   (bool_decide ("--help" ∈ drop 1 argv) ||
    match argv !! 1 with
    | Some a => bool_decide (a ∈ ["--help-commands"; "--version"; "clean"])
    | None => false
    end)).

(** [metadata[key] += extra] *)
Definition dict_iadd (key : string) (extra : list string) (md : gmap string pyval)
    : M (gmap string pyval) :=
  match md !! key with
  | Some (VList l) => ret (<[key := VList (l ++ extra)]> md)
  | Some _ => raise TypeError
  | None => raise (KeyError key)
  end.

Definition submodule_cmd : string := "git submodule update --init {mod}".

(** The body of [for m in modules]. *)
Definition init_submodule (m : string) : M unit :=
  match PyStr.split " " (PyStr.format_field submodule_cmd "mod" m) with
  | Some argv => check_call argv
  | None => raise ValueError
  end.

(** The build-time requirements and the package data of a full build. *)
Definition build_requires : list string := ["numpy>=1.7.0"; "scipy"; "mdtraj>=1.7.0"].

Definition build_package_data : gmap string (list string) :=
  list_to_map [
    ("pyemma", ["pyemma.cfg"; "logging.yml"]);
    ("pyemma.coordinates.tests", ["data/*"]);
    ("pyemma.msm.tests", ["data/*"]);
    ("pyemma.datasets", ["*.npz"]);
    ("pyemma.util.tests", ["data/*"])].

(** The [if]/[else] on [sys.argv]: from the metadata built so far to the
    metadata handed to [setup]. *)
Definition configure (argv : list string) (metadata : gmap string pyval)
    : M (gmap string pyval) :=
  if metadata_only argv then ret metadata
  else
    let metadata := <["setup_requires" := VList build_requires]> metadata in
    let metadata := <["package_data" := VDict build_package_data]> metadata in
    on_git <- ask (fun env => path_exists env ".git") ;;
    metadata <-
      (if on_git
       then
         warn "using git, require cython" ;;
         metadata <- dict_iadd "setup_requires" ["cython>=0.22"] metadata ;;
         let modules := ["pybind11"] in
         for_each modules init_submodule ;;
         ret metadata
       else ret metadata) ;;
    ret (<["ext_modules" := VLazyExtensions]> metadata).

(** ** The packaging framework, seen from the script *)

(** [setup], called with the metadata, belongs to setuptools.  What the
    script can observe of it is the sequence of requests it makes against
    what the script handed over: it runs commands (through [cmdclass] where
    the script overrides them), and at some moments it needs the extension
    list.  The sequence itself is the framework's business and is an input
    here. *)
Inductive request :=
| RunCommand (command : string)
| NeedExtensions.

Global Instance request_eq_dec : EqDecision request.
Proof. solve_decision. Defined.

(** Modelled from the spec: [lazy_cythonize] of [setup_util], which is not
    among the sources.  It wraps the zero-argument builder so that the list
    is computed only when the framework requires it, and the builder runs
    once: [cache] holds the list after the first request. *)
Definition force_ext_modules (metadata : gmap string pyval)
    (cache : option (list Extension)) : M (option (list Extension)) :=
  match metadata !! "ext_modules" with
  | Some VLazyExtensions =>
      match cache with
      | Some _ => ret cache
      | None => exts <- extensions ;; ret (Some exts)
      end
  | _ => ret cache
  end.

(** A command of the framework's own. *)
Definition base_command (c : string) : M unit :=
  tell (BaseCommandRun c) ;;
  external (fun env => base_command_run env c).

(** [versioneer_cmds['sdist'] = sdist] and [versioneer_cmds['test'] =
    PyTest]: the two commands the script overrides. *)
Definition run_command (metadata : gmap string pyval) (c : string) : M unit :=
  match metadata !! "cmdclass" with
  | Some VCmdclass =>
      if String.eqb c "sdist" then sdist_run
      else if String.eqb c "test" then run_tests ["pyemma"]
      else base_command c
  | _ => base_command c
  end.

Definition serve (metadata : gmap string pyval) (cache : option (list Extension))
    (r : request) : M (option (list Extension)) :=
  match r with
  | NeedExtensions => force_ext_modules metadata cache
  | RunCommand c => run_command metadata c ;; ret cache
  end.

Fixpoint serve_all (metadata : gmap string pyval) (cache : option (list Extension))
    (reqs : list request) : M unit :=
  match reqs with
  | [] => ret tt
  | r :: reqs' => cache' <- serve metadata cache r ;; serve_all metadata cache' reqs'
  end.

Definition setup (metadata : gmap string pyval) (reqs : list request) : M unit :=
  tell (SetupCalled metadata) ;;
  serve_all metadata None reqs.

(** The script from the branch on [sys.argv] to the end. *)
Definition main (argv : list string) (metadata : gmap string pyval)
    (reqs : list request) : M unit :=
  metadata <- configure argv metadata ;;
  setup metadata reqs.

(** The trace and the outcome of a computation. *)
Definition trace {A} (m : M A) (env : Env) : list event := fst (m env).
Definition outcome {A} (m : M A) (env : Env) : result A := snd (m env).

(** ** The source-form step as the specification words it *)

(** [strip_suffix p s] is the part of [s] before a final [p], when [s]
    ends in [p]. *)
Fixpoint strip_suffix (p s : string) : option string :=
  if String.eqb s p then Some EmptyString
  else
    match s with
    | EmptyString => None
    | String c s' => option_map (String c) (strip_suffix p s')
    end.

(** The specification's reading of the fallback: a path that ends in the
    intermediate suffix gets the lower-level suffix on the same base name,
    any other path is left as it is. *)
Definition spec_resolve_path (s : string) : string :=
  match strip_suffix ".pyx" s with
  | Some base => base +:+ ".c"
  | None => s
  end.

Definition spec_use_pregenerated_c (exts : list Extension) : list Extension :=
  map (fun e => set_sources e (map spec_resolve_path (sources e))) exts.

(** ['.pyx'] occurs in [s] nowhere but, possibly, as its suffix. *)
Definition pyx_only_as_suffix (s : string) : bool :=
  negb (PyStr.contains ".pyx" (default s (strip_suffix ".pyx" s))).

(** ** Capability providers *)




(** ** Object identity: the lists behind the descriptors *)

(** In Python the three attributes the feature step touches are list
    objects, and [+=] extends the object in place.  A [cell] is such an
    object, a heap is the list of all of them, and an [ExtensionObj] knows
    its three lists by their places in the heap. *)
Inductive cell :=
| StrCell (l : list string)
| MacroCell (l : list (string * option string)).

Record ExtensionObj := mkExtensionObj {
  attrs : Extension;
  compile_args_at : nat;
  link_args_at : nat;
  macros_at : nat
}.

(** [h[at_] += extra] on a list of strings, and on a list of macros. *)
Definition iadd_str (at_ : nat) (extra : list string) (h : list cell) : list cell :=
  alter (fun c => match c with StrCell l => StrCell (l ++ extra) | _ => c end) at_ h.

Definition iadd_macros (at_ : nat) (extra : list (string * option string))
    (h : list cell) : list cell :=
  alter (fun c => match c with MacroCell l => MacroCell (l ++ extra) | _ => c end) at_ h.

(** The body of [for e in exts] under [if openmp_enabled], on objects. *)
Definition openmp_loop_body (needs_gomp : bool) (h : list cell) (o : ExtensionObj)
    : list cell :=
  let omp_compiler_args := ["-fopenmp"] in
  let omp_libraries := if needs_gomp then ["-lgomp"] else [] in
  let omp_defines := [("USE_OPENMP", @None string)] in
  let h := iadd_str (compile_args_at o) omp_compiler_args h in
  let h := iadd_str (link_args_at o) omp_libraries h in
  iadd_macros (macros_at o) omp_defines h.

Definition openmp_loop (needs_gomp : bool) (objs : list ExtensionObj) (h : list cell)
    : list cell :=
  fold_left (openmp_loop_body needs_gomp) objs h.

(** The descriptor an object stands for in a heap. *)
Definition view (h : list cell) (o : ExtensionObj) : option Extension :=
  match h !! compile_args_at o, h !! link_args_at o, h !! macros_at o with
  | Some (StrCell c), Some (StrCell l), Some (MacroCell m) =>
      Some (set_define_macros
              (set_extra_link_args (set_extra_compile_args (attrs o) c) l) m)
  | _, _, _ => None
  end.

(** The places an object owns. *)
Definition refs (o : ExtensionObj) : list nat :=
  [compile_args_at o; link_args_at o; macros_at o].

(** The constructor: the three lists of a new descriptor are new objects. *)
Definition alloc_Extension (e : Extension) (h : list cell) : ExtensionObj * list cell :=
  (mkExtensionObj e (length h) (S (length h)) (S (S (length h))),
   h ++ [StrCell (extra_compile_args e); StrCell (extra_link_args e);
         MacroCell (define_macros e)]).

Fixpoint alloc_all (exts : list Extension) (h : list cell)
    : list ExtensionObj * list cell :=
  match exts with
  | [] => ([], h)
  | e :: exts' =>
      let '(o, h1) := alloc_Extension e h in
      let '(objs, h2) := alloc_all exts' h1 in
      (o :: objs, h2)
  end.

(** ** Vocabulary of the statements *)

(** What [add_openmp] does to one descriptor. *)
Definition openmp_added (needs_gomp : bool) (e e' : Extension) : Prop :=
  extra_compile_args e' = extra_compile_args e ++ ["-fopenmp"] /\
  count_occ String.string_dec (extra_compile_args e') "-fopenmp"
  = S (count_occ String.string_dec (extra_compile_args e) "-fopenmp") /\
  extra_link_args e'
  = extra_link_args e ++ (if needs_gomp then ["-lgomp"] else []) /\
  define_macros e' = define_macros e ++ [("USE_OPENMP", None)] /\
  name e' = name e /\ sources e' = sources e /\
  include_dirs e' = include_dirs e /\ libraries e' = libraries e /\
  library_dirs e' = library_dirs e /\ language e' = language e.

(** The command line of the submodule update. *)
Definition submodule_argv : list string :=
  ["git"; "submodule"; "update"; "--init"; "pybind11"].

(** The metadata of a full build, outside and inside a checkout. *)
Definition full_build_metadata (on_git : bool) (md : gmap string pyval)
    : gmap string pyval :=
  let md1 :=
    <["package_data" := VDict build_package_data]>
      (<["setup_requires" := VList build_requires]> md) in
  <["ext_modules" := VLazyExtensions]>
    (if on_git
     then <["setup_requires" := VList (build_requires ++ ["cython>=0.22"])]> md1
     else md1).

(** The arguments that count only in first position. *)
Definition first_only_flags : list string := ["--help-commands"; "--version"; "clean"].

(** ** Sample surroundings *)

(** A git checkout on Linux with every provider installed; the translator
    hands back the descriptors with their sources translated. *)
Definition env_checkout : Env :=
  mkEnv
    (fun m => bool_decide (m ∈ ["mdtraj"; "numpy"; "Cython.Build"; "pytest"]))
    (fun p => bool_decide (p ∈ [".git"; "pybind11/include"]))
    "setup.py" "linux" (true, true) "/opt/mdtraj/include" "/opt/mdtraj/lib"
    "/opt/numpy/include"
    (fun exts => Ok (use_pregenerated_c exts))
    (fun _ => Exited 0%Z) (Ok tt) (fun _ => Ok tt) (fun _ => 0%Z).

(** An unpacked source archive on Windows: no [.git], no translator, the
    bundled headers present, OpenMP available without an explicit
    runtime library. *)
Definition env_sdist : Env :=
  mkEnv
    (fun m => bool_decide (m ∈ ["mdtraj"; "numpy"]))
    (fun p => bool_decide (p ∈ ["pybind11/include"]))
    "setup.py" "win32" (true, false) "C:/mdtraj/include" "C:/mdtraj/lib"
    "C:/numpy/include"
    (fun exts => Raise (ExternalError "cythonize"))
    (fun _ => NotStarted) (Ok tt) (fun _ => Ok tt) (fun _ => 0%Z).

(** The checkout of [env_checkout], with the script started from another
    directory by its absolute path. *)
Definition env_checkout_elsewhere : Env :=
  mkEnv
    (fun m => bool_decide (m ∈ ["mdtraj"; "numpy"; "Cython.Build"; "pytest"]))
    (fun p => bool_decide (p ∈ ["/src/PyEMMA/pybind11/include"]))
    "/src/PyEMMA/setup.py" "linux" (true, true) "/opt/mdtraj/include" "/opt/mdtraj/lib"
    "/opt/numpy/include"
    (fun exts => Ok (use_pregenerated_c exts))
    (fun _ => Exited 0%Z) (Ok tt) (fun _ => Ok tt) (fun _ => 0%Z).


(** A git checkout without the translator and without the bundled
    headers, in which [git submodule update] fails with status 128. *)
Definition env_broken_checkout : Env :=
  mkEnv
    (fun m => bool_decide (m ∈ ["mdtraj"; "numpy"]))
    (fun p => bool_decide (p ∈ [".git"]))
    "setup.py" "linux" (false, false) "/opt/mdtraj/include" "/opt/mdtraj/lib"
    "/opt/numpy/include"
    (fun exts => Raise (ExternalError "cythonize"))
    (fun _ => Exited 128%Z) (Ok tt) (fun _ => Ok tt) (fun _ => 0%Z).

(** ** The command classes and the head of the script *)

(** A command class, as the framework finds it in [cmdclass]. *)
Inductive command_class :=
| VersioneerCommand (command : string)        (* a class of [versioneer.get_cmdclass()] *)
| SdistOverride (sdist_class : command_class) (* [class sdist(sdist_class)] *)
| PyTestCommand.                              (* [class PyTest(TestCommand)] *)

(** [get_cmdclass()], given the dict [versioneer.get_cmdclass()] returns. *)
Definition get_cmdclass (versioneer_cmds : gmap string command_class)
    : M (gmap string command_class) :=
  match versioneer_cmds !! "sdist" with
  | None => raise (KeyError "sdist")
  | Some sdist_class =>
      let versioneer_cmds := <["sdist" := SdistOverride sdist_class]> versioneer_cmds in
      import "setuptools.command.test" ;;
      let versioneer_cmds := <["test" := PyTestCommand]> versioneer_cmds in
      ret versioneer_cmds
  end.

(** The script from its first line to [metadata['requires'] = ...]: the
    imports, the guarded import of setuptools, and the [metadata] dict,
    whose values are evaluated in the order they are written
    ([open('README.rst')] before [get_cmdclass()]).  [readme] is the text of
    [README.rst] if the file can be read; Python 3 names the error of a
    failed [open] [OSError]. *)
Definition preamble (readme : option string) (version : string)
    (packages : list string) (versioneer_cmds : gmap string command_class)
    : M (gmap string pyval) :=
  import "versioneer" ;;
  import "setup_util" ;;
  except_ImportError
    (import "setuptools")
    (print "PyEMMA requires setuptools. Please install it with conda or pip." ;;
     raise (SystemExit 1)) ;;
  long_description <-
    match readme with
    | Some text => ret text
    | None => raise OSError
    end ;;
  _ <- get_cmdclass versioneer_cmds ;;
  ret (metadata0 long_description version packages).

(** The whole script. *)
Definition script (argv : list string) (readme : option string) (version : string)
    (packages : list string) (versioneer_cmds : gmap string command_class)
    (reqs : list request) : M unit :=
  metadata <- preamble readme version packages versioneer_cmds ;;
  main argv metadata reqs.

(** What versioneer offers: its own [sdist] among other commands. *)
Definition versioneer_cmds0 : gmap string command_class :=
  list_to_map [
    ("version", VersioneerCommand "version");
    ("build_py", VersioneerCommand "build_py");
    ("sdist", VersioneerCommand "sdist")].

(** More sample surroundings.  A checkout with the translator and numpy
    but without the trajectory library. *)
Definition env_checkout_no_mdtraj : Env :=
  mkEnv
    (fun m => bool_decide (m ∈ ["numpy"; "Cython.Build"]))
    (fun p => bool_decide (p ∈ [".git"; "pybind11/include"]))
    "setup.py" "linux" (true, true) "/opt/mdtraj/include" "/opt/mdtraj/lib"
    "/opt/numpy/include"
    (fun exts => Ok (use_pregenerated_c exts))
    (fun _ => Exited 0%Z) (Ok tt) (fun _ => Ok tt) (fun _ => 0%Z).

(** A checkout with every library but without the bundled headers. *)
Definition env_checkout_no_headers : Env :=
  mkEnv
    (fun m => bool_decide (m ∈ ["mdtraj"; "numpy"; "Cython.Build"]))
    (fun p => bool_decide (p ∈ [".git"]))
    "setup.py" "linux" (true, true) "/opt/mdtraj/include" "/opt/mdtraj/lib"
    "/opt/numpy/include"
    (fun exts => Ok (use_pregenerated_c exts))
    (fun _ => Exited 0%Z) (Ok tt) (fun _ => Ok tt) (fun _ => 0%Z).

(** An interpreter that has the script's own modules and nothing else. *)
Definition env_no_setuptools : Env :=
  mkEnv
    (fun m => bool_decide (m ∈ ["versioneer"; "setup_util"]))
    (fun _ => false) "setup.py" "linux" (false, false)
    "" "" "" (fun exts => Raise (ExternalError "cythonize"))
    (fun _ => NotStarted) (Ok tt) (fun _ => Ok tt) (fun _ => 0%Z).

(** A current setuptools, which has no [setuptools.command.test]. *)
Definition env_no_test_command : Env :=
  mkEnv
    (fun m => bool_decide (m ∈ ["versioneer"; "setup_util"; "setuptools"]))
    (fun _ => false) "setup.py" "linux" (false, false)
    "" "" "" (fun exts => Raise (ExternalError "cythonize"))
    (fun _ => NotStarted) (Ok tt) (fun _ => Ok tt) (fun _ => 0%Z).

(** A complete installation outside a checkout. *)
Definition env_installed : Env :=
  mkEnv
    (fun m => bool_decide (m ∈ ["versioneer"; "setup_util"; "setuptools";
                                "setuptools.command.test"; "pytest"]))
    (fun _ => false) "setup.py" "linux" (false, false)
    "" "" "" (fun exts => Raise (ExternalError "cythonize"))
    (fun _ => NotStarted) (Ok tt) (fun _ => Ok tt) (fun _ => 3%Z).

(** ** Vocabulary of the further properties *)

(** The event the translator probe leaves in the trace. *)
Definition probe_event (env : Env) : event :=
  if importable env "Cython.Build"
  then Imported "Cython.Build"
  else Warned "Cython not found. Using pre cythonized files.".

(** The descriptors before the source-form step. *)
Definition assembled (env : Env) : list Extension :=
  assemble (mdtraj_include_dir env) (mdtraj_lib_dir env) (numpy_include env)
    (pybind_inc (script_file env))
    (if PyStr.startswith (platform env) "win" then "lib" else "").

(** The three imports every run of the script starts with. *)
Definition head_imports : list event :=
  [Imported "versioneer"; Imported "setup_util"; Imported "setuptools"].

(** * Properties *)

(** ** The string primitives on the script's own literals *)

Example replace_pyx_eig :
  PyStr.replace ".pyx" ".c" "pyemma/_ext/variational/solvers/eig_qr/eig_qr.pyx"
  = "pyemma/_ext/variational/solvers/eig_qr/eig_qr.c".
Proof. reflexivity. Qed.

Example replace_empty_old : PyStr.replace "" "-" "abc" = "-a-b-c-".
Proof. reflexivity. Qed.

Example replace_overlap : PyStr.replace "aa" "b" "aaaaa" = "bba".
Proof. reflexivity. Qed.

Example split_cmd :
  PyStr.split " " (PyStr.format_field "git submodule update --init {mod}" "mod" "pybind11")
  = Some ["git"; "submodule"; "update"; "--init"; "pybind11"].
Proof. reflexivity. Qed.

Example split_edges : PyStr.split " " " a  b " = Some [""; "a"; ""; "b"; ""].
Proof. reflexivity. Qed.

Example dirname_examples :
  OsPath.dirname "setup.py" = "" /\
  OsPath.dirname "/src/PyEMMA/setup.py" = "/src/PyEMMA" /\
  OsPath.dirname "/setup.py" = "/" /\
  OsPath.dirname "a//b" = "a".
Proof. repeat split; reflexivity. Qed.

Example join_examples :
  OsPath.join "" ["pybind11"; "include"] = "pybind11/include" /\
  OsPath.join "/src/PyEMMA" ["pybind11"; "include"] = "/src/PyEMMA/pybind11/include" /\
  OsPath.join "a/" ["/b"; "c"] = "/b/c".
Proof. repeat split; reflexivity. Qed.

(** ** Facts about [str.replace] with ['.pyx'] *)

Section replace_facts.
Import PyStr.

Lemma append_nil_l s : "" +:+ s = s.
Proof. reflexivity. Qed.

Lemma append_cons c s t : String c s +:+ t = String c (s +:+ t).
Proof. reflexivity. Qed.

Lemma append_nil_r s : s +:+ "" = s.
Proof. induction s as [|c s IH]; [done|]. by rewrite append_cons, IH. Qed.

Lemma prefix_nil_l s : String.prefix "" s = true.
Proof. by destruct s. Qed.

Lemma prefix_cons a b s1 s2 :
  String.prefix (String a s1) (String b s2) = Ascii.eqb a b && String.prefix s1 s2.
Proof.
  cbn [String.prefix]. destruct (ascii_dec a b) as [->|Hne].
  - by rewrite Ascii.eqb_refl.
  - apply Ascii.eqb_neq in Hne. by rewrite Hne.
Qed.

Lemma contains_cons old c s :
  contains old (String c s) = String.prefix old (String c s) || contains old s.
Proof. reflexivity. Qed.

(** Where [old] does not occur, [replace] copies. *)
Lemma replace_from_absent old new s :
  contains old s = false -> replace_from old new 0 s = s.
Proof.
  induction s as [|c s IH]; [done|].
  rewrite contains_cons. intros [Hp Hs]%orb_false_iff.
  cbn [replace_from]. rewrite Hp. by rewrite IH.
Qed.

Ltac prefix_chars H :=
  repeat (rewrite prefix_cons in H;
          let Hc := fresh "Hc" in
          apply andb_true_iff in H as [Hc H];
          apply Ascii.eqb_eq in Hc; try discriminate Hc).

(** ['.pyx'] has a dot at its head only, so an occurrence that starts
    inside [x] cannot run into a following ['.pyx']. *)
Lemma prefix_pyx_app x b :
  String.prefix ".pyx" (x +:+ ".pyx" +:+ b) = true ->
  x = "" \/ String.prefix ".pyx" x = true.
Proof.
  destruct x as [|c1 [|c2 [|c3 [|c4 x]]]]; [by left|..];
    intros H; right; rewrite ?append_cons, ?append_nil_l in H; prefix_chars H.
  subst. by rewrite !prefix_cons, prefix_nil_l.
Qed.

(** The leftmost occurrence is replaced and the scan resumes behind it. *)
Lemma replace_from_first a b :
  contains ".pyx" a = false ->
  replace_from ".pyx" ".c" 0 (a +:+ ".pyx" +:+ b)
  = a +:+ ".c" +:+ replace_from ".pyx" ".c" 0 b.
Proof.
  induction a as [|c a IH].
  { intros _. rewrite !append_nil_l, !append_cons, append_nil_l.
    cbn [replace_from]. by rewrite !prefix_cons, prefix_nil_l. }
  rewrite contains_cons. intros [Hp Ha]%orb_false_iff.
  rewrite !(append_cons c a).
  cbn [replace_from].
  destruct (String.prefix ".pyx" (String c (a +:+ ".pyx" +:+ b))) eqn:E.
  - apply (prefix_pyx_app (String c a) b) in E as [?|E]; [done|congruence].
  - rewrite IH by done. done.
Qed.

Lemma strip_suffix_Some p s base :
  strip_suffix p s = Some base -> s = base +:+ p.
Proof.
  revert base. induction s as [|c s IH]; intros base; cbn [strip_suffix].
  - destruct (String.eqb "" p) eqn:E; [|done].
    apply String.eqb_eq in E. by intros [= <-].
  - destruct (String.eqb (String c s) p) eqn:E.
    + apply String.eqb_eq in E. by intros [= <-].
    + destruct (strip_suffix p s) as [b|]; [|done].
      intros [= <-]. by rewrite append_cons, <- (IH b).
Qed.

Lemma strip_suffix_app p base : is_Some (strip_suffix p (base +:+ p)).
Proof.
  induction base as [|c base [b IH]]; cbn [strip_suffix].
  - rewrite append_nil_l. destruct p; cbn [strip_suffix]; by rewrite String.eqb_refl.
  - rewrite append_cons. cbn [strip_suffix].
    destruct (String.eqb _ p); [done|]. by rewrite IH.
Qed.

Lemma endswith_strip_suffix s p :
  endswith s p = true <-> is_Some (strip_suffix p s).
Proof.
  induction s as [|c s IH]; cbn [endswith strip_suffix].
  - destruct (String.eqb "" p); [|split; [done|by intros [? ?]]].
    split; [by eexists|done].
  - destruct (String.eqb (String c s) p); [split; [by eexists|done]|].
    rewrite orb_false_l, IH. destruct (strip_suffix p s); cbn.
    + split; by eexists.
    + split; by intros [? ?].
Qed.

(** Where ['.pyx'] occurs at most as the suffix, the script's [replace]
    is the specification's suffix swap. *)
Lemma replace_pyx_is_suffix_swap s :
  pyx_only_as_suffix s = true ->
  replace ".pyx" ".c" s = spec_resolve_path s.
Proof.
  unfold pyx_only_as_suffix, spec_resolve_path. intros H%negb_true_iff.
  change (replace ".pyx" ".c" s) with (replace_from ".pyx" ".c" 0 s).
  destruct (strip_suffix ".pyx" s) as [base|] eqn:E; cbn [default] in H.
  - apply strip_suffix_Some in E as ->.
    rewrite <- (append_nil_r (base +:+ ".pyx")) at 1.
    replace ((base +:+ ".pyx") +:+ "") with (base +:+ ".pyx" +:+ "")
      by (by rewrite !append_nil_r).
    by rewrite replace_from_first.
  - by apply replace_from_absent.
Qed.

End replace_facts.

Lemma append_length s t :
  String.length (s +:+ t) = String.length s + String.length t.
Proof. induction s as [|c s IH]; [done|]. rewrite append_cons. cbn. by rewrite IH. Qed.

Lemma append_inv_tail b1 b2 p : b1 +:+ p = b2 +:+ p -> b1 = b2.
Proof.
  revert b2. induction b1 as [|c b1 IH]; intros [|c2 b2] H.
  - done.
  - apply (f_equal String.length) in H.
    rewrite append_cons, append_nil_l in H. cbn in H. rewrite append_length in H. lia.
  - apply (f_equal String.length) in H.
    rewrite append_cons, append_nil_l in H. cbn in H. rewrite append_length in H. lia.
  - rewrite !append_cons in H. injection H as -> H. f_equal. by apply IH.
Qed.

Lemma strip_suffix_app_eq p base : strip_suffix p (base +:+ p) = Some base.
Proof.
  destruct (strip_suffix_app p base) as [b Hb]. rewrite Hb. f_equal.
  apply strip_suffix_Some in Hb. by apply (append_inv_tail _ _ p).
Qed.

(** What the specification's function does, in the specification's words:
    a path ending in ['.pyx'] gets ['.c'] on the same base name, any other
    path is untouched. *)
Lemma spec_resolve_path_spec :
  (forall base, spec_resolve_path (base +:+ ".pyx") = base +:+ ".c") /\
  (forall s, PyStr.endswith s ".pyx" = false -> spec_resolve_path s = s).
Proof.
  split.
  - intros base. unfold spec_resolve_path. by rewrite strip_suffix_app_eq.
  - intros s H. unfold spec_resolve_path.
    destruct (strip_suffix ".pyx" s) eqn:E; [|done].
    assert (PyStr.endswith s ".pyx" = true) as H'
      by (apply endswith_strip_suffix; by eexists).
    congruence.
Qed.

(** *** The result of the replacement holds no ['.pyx'] *)

Lemma contains_dot_cons a w :
  PyStr.contains "." (String a w) = Ascii.eqb "." a || PyStr.contains "." w.
Proof. rewrite contains_cons, prefix_cons, prefix_nil_l. by rewrite andb_true_r. Qed.

(** A prefix without a dot survives the replacement only if it was there
    before: every character the replacement writes itself belongs to
    ['.c'], which starts with a dot. *)
Lemma prefix_replace_from w s :
  PyStr.contains "." w = false ->
  String.prefix w (PyStr.replace_from ".pyx" ".c" 0 s) = true ->
  String.prefix w s = true.
Proof.
  revert s. induction w as [|a w IH]; intros s Hw; [by rewrite !prefix_nil_l|].
  rewrite contains_dot_cons in Hw. apply orb_false_iff in Hw as [Ha Hw].
  destruct s as [|c s]; [done|]. cbn [PyStr.replace_from].
  destruct (String.prefix ".pyx" (String c s)) eqn:E.
  - rewrite append_cons, prefix_cons, Ascii.eqb_sym, Ha. done.
  - rewrite !prefix_cons. intros [Hc Hp]%andb_true_iff.
    by rewrite Hc, (IH s Hw Hp).
Qed.

Lemma replace_from_free skip s :
  PyStr.contains ".pyx" (PyStr.replace_from ".pyx" ".c" skip s) = false.
Proof.
  revert skip. induction s as [|c s IH]; intros skip; [done|].
  cbn [PyStr.replace_from]. destruct skip as [|k]; [|apply IH].
  destruct (String.prefix ".pyx" (String c s)) eqn:E.
  - rewrite !append_cons, append_nil_l, !contains_cons, IH, !prefix_cons. done.
  - rewrite contains_cons, IH, orb_false_r.
    destruct (String.prefix ".pyx" (String c (PyStr.replace_from ".pyx" ".c" 0 s)))
      eqn:E'; [|done].
    rewrite prefix_cons in E'. apply andb_true_iff in E' as [Hc Hp].
    apply prefix_replace_from in Hp; [|done].
    by rewrite prefix_cons, Hc, Hp in E.
Qed.

Lemma prefix_app_l old a b :
  String.prefix old a = true -> String.prefix old (a +:+ b) = true.
Proof.
  revert a. induction old as [|o old IH]; intros a; [by rewrite !prefix_nil_l|].
  destruct a as [|c a]; [done|]. rewrite append_cons, !prefix_cons.
  intros [-> Hp]%andb_true_iff. by rewrite (IH a Hp).
Qed.

Lemma contains_app_l old a b :
  PyStr.contains old a = true -> PyStr.contains old (a +:+ b) = true.
Proof.
  induction a as [|c a IH].
  - cbn. rewrite orb_false_r. destruct old; [|done]. intros _.
    destruct b; cbn; by rewrite ?prefix_nil_l.
  - rewrite append_cons, !contains_cons. intros [H|H]%orb_true_iff.
    + pose proof (prefix_app_l _ (String c a) b H) as H'.
      rewrite append_cons in H'. by rewrite H'.
    + by rewrite (IH H), orb_true_r.
Qed.

(** The script's [replace] and the specification's suffix swap agree on a
    path exactly when ['.pyx'] occurs in it at most as the suffix. *)
Lemma replace_pyx_suffix_swap_iff s :
  PyStr.replace ".pyx" ".c" s = spec_resolve_path s <-> pyx_only_as_suffix s = true.
Proof.
  split; [|apply replace_pyx_is_suffix_swap].
  intros Heq. unfold pyx_only_as_suffix. apply negb_true_iff, not_true_is_false.
  intros Hin.
  assert (PyStr.contains ".pyx" (spec_resolve_path s) = false) as Hfree.
  { rewrite <- Heq. apply replace_from_free. }
  revert Hin Hfree. unfold spec_resolve_path.
  destruct (strip_suffix ".pyx" s) as [base|]; cbn [default]; intros Hin Hfree.
  - by rewrite (contains_app_l _ base ".c" Hin) in Hfree.
  - congruence.
Qed.

(** ** The source-form step without the translator *)

(** On a descriptor set in whose source paths ['.pyx'] occurs nowhere
    but, possibly, as the suffix, [s.replace('.pyx', '.c')] on every source
    is the mapping of the specification. *)
Lemma use_pregenerated_c_is_spec (exts : list Extension) :
  Forall (fun e => Forall (fun s => pyx_only_as_suffix s = true) (sources e)) exts ->
  use_pregenerated_c exts = spec_use_pregenerated_c exts.
Proof.
  intros H. unfold use_pregenerated_c, spec_use_pregenerated_c.
  induction H as [|e exts He _ IH]; [done|].
  cbn [map]. rewrite IH. do 2 f_equal.
  induction He as [|s l Hs _ IHl]; [done|].
  cbn [map]. by rewrite IHl, replace_pyx_is_suffix_swap.
Qed.

(** No weaker condition will do: [str.replace] rewrites ['.pyx'] wherever
    it stands, so the two mappings agree on a descriptor set only if its
    paths hold ['.pyx'] at most as the suffix. *)
Lemma use_pregenerated_c_suffix_swap_only (exts : list Extension) :
  use_pregenerated_c exts = spec_use_pregenerated_c exts ->
  Forall (fun e => Forall (fun s => pyx_only_as_suffix s = true) (sources e)) exts.
Proof.
  unfold use_pregenerated_c, spec_use_pregenerated_c.
  induction exts as [|e exts IH]; [constructor|].
  cbn [map]. intros [= He Hexts]. constructor; [|by apply IH].
  clear -He. induction (sources e) as [|s l IHl]; [constructor|].
  cbn [map] in He. injection He as Hs Hl.
  constructor; [by apply replace_pyx_suffix_swap_iff|by apply IHl].
Qed.

(** The four descriptors of the script are such a set, whatever the
    include and library directories. *)
Lemma assemble_pyx_only_as_suffix mdtraj_inc mdtraj_lib np_inc pybind lib_prefix :
  Forall (fun e => Forall (fun s => pyx_only_as_suffix s = true) (sources e))
    (assemble mdtraj_inc mdtraj_lib np_inc pybind lib_prefix).
Proof. repeat constructor. Qed.

(** The mapping of the specification, path by path. *)
Lemma spec_use_pregenerated_c_paths (exts : list Extension) :
  Forall2 (fun e e' =>
             e' = set_sources e (sources e') /\
             Forall2 (fun s s' =>
                        (forall base, s = base +:+ ".pyx" -> s' = base +:+ ".c") /\
                        (PyStr.endswith s ".pyx" = false -> s' = s))
               (sources e) (sources e'))
    exts (spec_use_pregenerated_c exts).
Proof.
  unfold spec_use_pregenerated_c.
  induction exts as [|e exts IH]; cbn [map]; constructor; [|exact IH].
  split; [done|]. cbn [sources set_sources].
  induction (sources e) as [|s l IHl]; cbn [map]; constructor; [|exact IHl].
  destruct spec_resolve_path_spec as [Hswap Hkeep]. split.
  - intros base ->. apply Hswap.
  - apply Hkeep.
Qed.

(** C1.  When the translator is unavailable, the source-form step of
    [extensions()] returns, without any effect, the descriptors it is given
    with every source path that ends in ['.pyx'] mapped to the same base
    name with ['.c'], every other source path untouched and every other
    attribute as it was.  The step is given the four descriptors assembled
    just above it, whatever the directories and the platform; the same
    holds on every descriptor set in whose source paths ['.pyx'] occurs
    nowhere but, possibly, as the suffix. *)
Theorem use_pregenerated_c_suffix_swap (env : Env) :
  resolve_sources false (assembled env) env
  = ([], Ok (spec_use_pregenerated_c (assembled env))) /\
  Forall2 (fun e e' =>
             e' = set_sources e (sources e') /\
             Forall2 (fun s s' =>
                        (forall base, s = base +:+ ".pyx" -> s' = base +:+ ".c") /\
                        (PyStr.endswith s ".pyx" = false -> s' = s))
               (sources e) (sources e'))
    (assembled env) (use_pregenerated_c (assembled env)) /\
  (forall exts : list Extension,
     Forall (fun e => Forall (fun s => pyx_only_as_suffix s = true) (sources e)) exts ->
     resolve_sources false exts env = ([], Ok (spec_use_pregenerated_c exts)) /\
     Forall2 (fun e e' =>
                e' = set_sources e (sources e') /\
                Forall2 (fun s s' =>
                           (forall base, s = base +:+ ".pyx" -> s' = base +:+ ".c") /\
                           (PyStr.endswith s ".pyx" = false -> s' = s))
                  (sources e) (sources e'))
       exts (use_pregenerated_c exts)).
Proof.
  assert (forall exts : list Extension,
    Forall (fun e => Forall (fun s => pyx_only_as_suffix s = true) (sources e)) exts ->
    resolve_sources false exts env = ([], Ok (spec_use_pregenerated_c exts)) /\
    Forall2 (fun e e' =>
               e' = set_sources e (sources e') /\
               Forall2 (fun s s' =>
                          (forall base, s = base +:+ ".pyx" -> s' = base +:+ ".c") /\
                          (PyStr.endswith s ".pyx" = false -> s' = s))
                 (sources e) (sources e'))
      exts (use_pregenerated_c exts)) as Hgen.
  { intros exts Hexts. unfold resolve_sources. cbn [negb]. unfold ret.
    rewrite (use_pregenerated_c_is_spec exts Hexts).
    split; [done|apply spec_use_pregenerated_c_paths]. }
  destruct (Hgen (assembled env) (assemble_pyx_only_as_suffix _ _ _ _ _)) as [H1 H2].
  split; [exact H1|]. split; [exact H2|exact Hgen].
Qed.

(** Outside the script: a descriptor set with ['.pyx'] inside a directory
    name or twice at the end, which the script never builds.  There
    [str.replace] and the suffix swap part ways. *)
Example use_pregenerated_c_on_odd_paths :
  use_pregenerated_c
    [new_Extension "pkg._kernel" ["templates.pyx/kernel.c"; "kernel.pyx.pyx"]
       [] None [] [] []]
  = [new_Extension "pkg._kernel" ["templates.c/kernel.c"; "kernel.c.c"]
       [] None [] [] []] /\
  spec_use_pregenerated_c
    [new_Extension "pkg._kernel" ["templates.pyx/kernel.c"; "kernel.pyx.pyx"]
       [] None [] [] []]
  = [new_Extension "pkg._kernel" ["templates.pyx/kernel.c"; "kernel.pyx.c"]
       [] None [] [] []].
Proof. split; reflexivity. Qed.

(** ** Running computations *)

Section running.
Context {A B : Type}.

Lemma trace_bind (m : M A) (k : A -> M B) env :
  trace (bind m k) env
  = trace m env ++ match outcome m env with
                   | Ok a => trace (k a) env
                   | Raise _ => []
                   end.
Proof.
  unfold trace, outcome, bind. destruct (m env) as [t [a|e]]; cbn.
  - by destruct (k a env).
  - by rewrite app_nil_r.
Qed.


Lemma run_eta (m : M A) env : m env = (trace m env, outcome m env).
Proof. unfold trace, outcome. by destruct (m env). Qed.

Lemma bind_tell ev (k : unit -> M B) env :
  bind (tell ev) k env = (ev :: trace (k tt) env, outcome (k tt) env).
Proof. unfold bind, tell, trace, outcome. by destruct (k tt env). Qed.

Lemma bind_ask (f : Env -> A) (k : A -> M B) env :
  bind (ask f) k env = k (f env) env.
Proof. unfold bind, ask. by destruct (k (f env) env). Qed.

Lemma bind_ret (a : A) (k : A -> M B) env : bind (ret a) k env = k a env.
Proof. unfold bind, ret. by destruct (k a env). Qed.

Lemma bind_raise e (k : A -> M B) env : bind (raise e) k env = ([], Raise e).
Proof. reflexivity. Qed.

Lemma bind_run (m : M A) (k : A -> M B) env t a :
  m env = (t, Ok a) -> bind m k env = (t ++ trace (k a) env, outcome (k a) env).
Proof. intros H. unfold bind, trace, outcome. rewrite H. by destruct (k a env). Qed.

Lemma bind_run_raise (m : M A) (k : A -> M B) env t e :
  m env = (t, Raise e) -> bind m k env = (t, Raise e).
Proof. intros H. unfold bind. by rewrite H. Qed.

End running.

(** ** The feature step *)

(** C2.  With OpenMP detected, the feature step warns and returns, for
    every descriptor of the set and in the same order, the descriptor with
    ['-fopenmp'] appended once to its compiler arguments, ['-lgomp']
    appended to its linker arguments exactly when [needs_gomp] holds, and
    the define [('USE_OPENMP', None)] appended to its macros; no descriptor
    is left out and nothing else changes. *)
Theorem inject_openmp_enabled (needs_gomp : bool) (exts : list Extension) (env : Env) :
  inject_openmp true needs_gomp exts env
  = ([Warned "enabled openmp"], Ok (add_openmp needs_gomp exts)) /\
  Forall2 (openmp_added needs_gomp) exts (add_openmp needs_gomp exts).
Proof.
  split; [reflexivity|].
  unfold add_openmp. induction exts as [|e exts IH]; [constructor|].
  cbn [map]. constructor; [|exact IH].
  unfold openmp_added. cbn.
  repeat split.
  rewrite count_occ_app. cbn. destruct (String.string_dec "-fopenmp" "-fopenmp"); [lia|done].
Qed.

(** C4.  Without OpenMP the feature step emits nothing and returns the
    descriptor set it was given: every attribute of every descriptor, its
    compiler arguments, linker arguments and macros among them, is
    unchanged. *)
Theorem inject_openmp_disabled (needs_gomp : bool) (exts : list Extension) (env : Env) :
  inject_openmp false needs_gomp exts env = ([], Ok exts) /\
  forall exts', outcome (inject_openmp false needs_gomp exts) env = Ok exts' ->
    Forall2 (fun e e' =>
               extra_compile_args e' = extra_compile_args e /\
               extra_link_args e' = extra_link_args e /\
               define_macros e' = define_macros e)
            exts exts'.
Proof.
  split; [reflexivity|].
  intros exts' [= <-]. by apply Forall_Forall2_diag, Forall_forall.
Qed.

(** ** The feature step on objects *)

(** The loop touches the lists of the objects it runs over and no other. *)
Lemma openmp_loop_frame g objs h r :
  r ∉ objs ≫= refs -> openmp_loop g objs h !! r = h !! r.
Proof.
  revert h. induction objs as [|o objs IH]; intros h Hr; [done|].
  cbn [openmp_loop fold_left]. change (fold_left _ objs ?x) with (openmp_loop g objs x).
  cbn [mbind list_bind] in Hr. rewrite not_elem_of_app in Hr. destruct Hr as [Ho Hobjs].
  rewrite IH by done.
  unfold refs in Ho. rewrite !not_elem_of_cons in Ho. destruct Ho as (H1 & H2 & H3 & _).
  unfold openmp_loop_body, iadd_str, iadd_macros.
  by rewrite !list_lookup_alter_ne by done.
Qed.

Lemma view_frame h h' o :
  (forall r, r ∈ refs o -> h' !! r = h !! r) -> view h' o = view h o.
Proof.
  intros H. unfold view.
  rewrite !H; [done|unfold refs; rewrite !elem_of_cons; auto..].
Qed.

Lemma openmp_loop_body_view g h o e :
  NoDup (refs o) ->
  view h o = Some e ->
  view (openmp_loop_body g h o) o = head (add_openmp g [e]).
Proof.
  intros Hnd Hv. unfold refs in Hnd.
  apply NoDup_cons in Hnd as [H1 Hnd]. apply NoDup_cons in Hnd as [H2 _].
  rewrite !not_elem_of_cons in H1. rewrite !not_elem_of_cons in H2.
  destruct H1 as (H12 & H13 & _), H2 as (H23 & _).
  revert Hv. unfold view, openmp_loop_body, iadd_str, iadd_macros.
  destruct (h !! compile_args_at o) as [[c|]|] eqn:Ec; try done.
  destruct (h !! link_args_at o) as [[l|]|] eqn:El; try done.
  destruct (h !! macros_at o) as [[|m]|] eqn:Em; try done.
  intros [= <-].
  repeat (rewrite list_lookup_alter_eq || rewrite list_lookup_alter_ne by done).
  rewrite Ec, El, Em.
  reflexivity.
Qed.

Lemma add_openmp_cons g e exts :
  add_openmp g (e :: exts) = default e (head (add_openmp g [e])) :: add_openmp g exts.
Proof. reflexivity. Qed.

(** Run over objects that share no list, the in-place loop does to every
    descriptor what [add_openmp] does. *)
Lemma openmp_loop_owned g objs h exts :
  NoDup (objs ≫= refs) ->
  Forall2 (fun o e => view h o = Some e) objs exts ->
  Forall2 (fun o e => view (openmp_loop g objs h) o = Some e) objs (add_openmp g exts).
Proof.
  intros Hnd Hv. revert h exts Hnd Hv.
  induction objs as [|o objs IH]; intros h exts Hnd Hv.
  { inversion Hv. constructor. }
  inversion Hv as [|? e ? exts' Ho Hobjs]; subst.
  cbn [mbind list_bind] in Hnd. apply NoDup_app in Hnd as (Hndo & Hdisj & Hndobjs).
  cbn [openmp_loop fold_left].
  change (fold_left _ objs ?x) with (openmp_loop g objs x).
  rewrite add_openmp_cons. constructor.
  - rewrite (view_frame (openmp_loop_body g h o)).
    + by rewrite (openmp_loop_body_view g h o e).
    + intros r Hr. apply openmp_loop_frame. by apply Hdisj.
  - apply IH; [done|].
    eapply Forall2_impl; [|exact (fun o' e' H => H)].
    apply Forall2_same_length_lookup_2; [by eapply Forall2_length|].
    intros i o' e' Ho' He'.
    pose proof (Forall2_lookup_lr _ _ _ _ _ _ Hobjs Ho' He') as Hvo.
    rewrite (view_frame h); [done|].
    intros r Hr. unfold openmp_loop_body, iadd_str, iadd_macros.
    assert (r ∈ objs ≫= refs) as Hin.
    { apply list_elem_of_bind. exists o'. split; [done|]. by eapply list_elem_of_lookup_2. }
    assert (r ∉ refs o) as Hnot by (intros ?; by eapply Hdisj).
    unfold refs in Hnot. rewrite !not_elem_of_cons in Hnot.
    destruct Hnot as (? & ? & ? & _).
    by rewrite !list_lookup_alter_ne by done.
Qed.

Lemma view_alloc e h h' :
  (forall r, r < length h + 3 ->
     h' !! r = (h ++ [StrCell (extra_compile_args e); StrCell (extra_link_args e);
                      MacroCell (define_macros e)]) !! r) ->
  view h' (fst (alloc_Extension e h)) = Some e.
Proof.
  intros H. unfold view. cbn.
  rewrite !H by lia.
  rewrite (lookup_app_r h _ (length h)) by lia.
  rewrite (lookup_app_r h _ (S (length h))) by lia.
  rewrite (lookup_app_r h _ (S (S (length h)))) by lia.
  replace (length h - length h) with 0 by lia.
  replace (S (length h) - length h) with 1 by lia.
  replace (S (S (length h)) - length h) with 2 by lia.
  by destruct e.
Qed.

(** Freshly constructed descriptors share no list. *)
Lemma alloc_all_owned exts h objs h' :
  alloc_all exts h = (objs, h') ->
  NoDup (objs ≫= refs) /\
  Forall2 (fun o e => view h' o = Some e) objs exts /\
  (forall r, r ∈ objs ≫= refs -> length h <= r) /\
  (forall r, r < length h -> h' !! r = h !! r).
Proof.
  revert h objs h'. induction exts as [|e exts IH]; intros h objs h'.
  { intros [= <- <-]. split; [apply NoDup_nil_2|]. split; [constructor|].
    split; [|done]. intros r Hr. by apply elem_of_nil in Hr. }
  cbn [alloc_all].
  destruct (alloc_Extension e h) as [o h1] eqn:Eo.
  destruct (alloc_all exts h1) as [objs' h2] eqn:Eobjs.
  intros [= <- <-].
  destruct (IH h1 objs' h2 Eobjs) as (Hnd & Hv & Hlow & Hpre).
  assert (length h1 = length h + 3) as Hlen.
  { injection Eo as _ <-. rewrite length_app. cbn. lia. }
  assert (refs o = [length h; S (length h); S (S (length h))]) as Hrefs.
  { by injection Eo as <- _. }
  split; [|split; [|split]].
  - cbn [mbind list_bind]. apply NoDup_app. split; [|split; [|done]].
    + rewrite Hrefs. rewrite !NoDup_cons, !not_elem_of_cons.
      repeat split; try lia; try apply not_elem_of_nil. constructor.
    + intros r Hr Hr'. apply Hlow in Hr'. rewrite Hrefs in Hr.
      rewrite !elem_of_cons, elem_of_nil in Hr. lia.
  - constructor; [|done].
    replace o with (fst (alloc_Extension e h)) by (by rewrite Eo).
    apply view_alloc. intros r Hr. rewrite Hpre by lia. by injection Eo as _ <-.
  - intros r. cbn [mbind list_bind]. rewrite elem_of_app, Hrefs. intros [Hr|Hr].
    + rewrite !elem_of_cons, elem_of_nil in Hr. lia.
    + apply Hlow in Hr. lia.
  - intros r Hr. rewrite Hpre by lia. injection Eo as _ <-.
    by rewrite lookup_app_l by lia.
Qed.

(** The in-place loop over freshly constructed descriptors computes what
    [add_openmp] computes. *)
Lemma openmp_loop_on_fresh g exts objs h :
  alloc_all exts [] = (objs, h) ->
  Forall2 (fun o e => view (openmp_loop g objs h) o = Some e) objs (add_openmp g exts).
Proof.
  intros H. destruct (alloc_all_owned exts [] objs h H) as (Hnd & Hv & _).
  by apply openmp_loop_owned.
Qed.

(** The same object twice in the list gets everything twice: ownership is
    what the functional reading rests on. *)
Example openmp_loop_aliased :
  let e := new_Extension "m" ["m.c"] [] None [] [] ["-O3"] in
  let '(o, h) := alloc_Extension e [] in
  view (openmp_loop true [o; o] h) o
  = Some (mkExtension "m" ["m.c"] [] [("USE_OPENMP", None); ("USE_OPENMP", None)] [] []
            ["-O3"; "-fopenmp"; "-fopenmp"] ["-lgomp"; "-lgomp"] None).
Proof. reflexivity. Qed.

(** ** The translator probe and the bundled headers *)

Lemma import_run (m : string) (env : Env) :
  import m env
  = if importable env m then ([Imported m], Ok tt) else ([], Raise (ImportError m)).
Proof. unfold import. rewrite bind_ask. by destruct (importable env m). Qed.

Lemma probe_cython_run (env : Env) :
  probe_cython env
  = (if importable env "Cython.Build"
     then ([Imported "Cython.Build"], Ok true)
     else ([Warned "Cython not found. Using pre cythonized files."], Ok false)).
Proof.
  unfold probe_cython, except_ImportError.
  destruct (importable env "Cython.Build") eqn:E.
  - by rewrite (bind_run _ _ _ [Imported "Cython.Build"] tt)
      by (by rewrite import_run, E).
  - by rewrite (bind_run_raise _ _ _ [] (ImportError "Cython.Build"))
      by (by rewrite import_run, E).
Qed.

(** C7.  The translator probe returns normally whatever the import does:
    [True] after a successful import, [False] with one warning after a
    failed one.  After a failed import [extensions()] goes on with its body
    under [USE_CYTHON = False]. *)
Theorem probe_cython_never_raises (env : Env) :
  probe_cython env
  = (if importable env "Cython.Build"
     then ([Imported "Cython.Build"], Ok true)
     else ([Warned "Cython not found. Using pre cythonized files."], Ok false)) /\
  (importable env "Cython.Build" = false ->
   extensions env
   = (BuilderInvoked :: Warned "Cython not found. Using pre cythonized files."
        :: trace (extensions_body false) env,
      outcome (extensions_body false) env)).
Proof.
  split; [apply probe_cython_run|].
  intros Hno. unfold extensions. rewrite bind_tell.
  unfold trace, outcome.
  rewrite (bind_run _ _ _ [Warned "Cython not found. Using pre cythonized files."] false)
    by (by rewrite probe_cython_run, Hno).
  reflexivity.
Qed.

Lemma check_pybind_run (env : Env) :
  check_pybind env
  = ([], if path_exists env (pybind_inc (script_file env))
         then Ok (pybind_inc (script_file env))
         else Raise AssertionError).
Proof.
  unfold check_pybind. rewrite !bind_ask. unfold assert.
  by destruct (path_exists env (pybind_inc (script_file env))).
Qed.

(** [extensions()] up to the assembly of the descriptors, case by case. *)
Lemma extensions_body_run (u : bool) (env : Env) :
  extensions_body u env
  = if importable env "mdtraj"
    then if importable env "numpy"
         then if path_exists env (pybind_inc (script_file env))
              then
                let build :=
                  build_descriptors u (fst (detect_openmp env))
                    (snd (detect_openmp env)) (numpy_include env)
                    (pybind_inc (script_file env)) in
                (Imported "mdtraj" :: Imported "numpy" :: trace build env,
                 outcome build env)
              else ([Imported "mdtraj"; Imported "numpy"], Raise AssertionError)
         else ([Imported "mdtraj"], Raise (ImportError "numpy"))
    else ([], Raise (ImportError "mdtraj")).
Proof.
  unfold extensions_body. rewrite bind_ask.
  destruct (importable env "mdtraj") eqn:Em.
  2: { by rewrite (bind_run_raise _ _ _ [] (ImportError "mdtraj"))
         by (by rewrite import_run, Em). }
  rewrite (bind_run _ _ _ [Imported "mdtraj"] tt) by (by rewrite import_run, Em).
  unfold trace, outcome.
  destruct (importable env "numpy") eqn:En.
  2: { by rewrite (bind_run_raise _ _ _ [] (ImportError "numpy"))
         by (by rewrite import_run, En). }
  rewrite (bind_run _ _ _ [Imported "numpy"] tt) by (by rewrite import_run, En).
  unfold trace, outcome. rewrite bind_ask.
  destruct (path_exists env (pybind_inc (script_file env))) eqn:Ep.
  - by rewrite (bind_run _ _ _ [] (pybind_inc (script_file env)))
      by (by rewrite check_pybind_run, Ep).
  - by rewrite (bind_run_raise _ _ _ [] AssertionError)
      by (by rewrite check_pybind_run, Ep).
Qed.

Lemma extensions_run (env : Env) :
  extensions env
  = (BuilderInvoked :: trace probe_cython env
       ++ trace (extensions_body (importable env "Cython.Build")) env,
     outcome (extensions_body (importable env "Cython.Build")) env).
Proof.
  unfold extensions. rewrite bind_tell. unfold trace at 1, outcome at 1.
  pose proof (probe_cython_run env) as Hp.
  destruct (importable env "Cython.Build");
    rewrite (bind_run _ _ _ _ _ Hp); unfold trace at 3; by rewrite Hp.
Qed.

(** C8.  The check on the bundled header directory returns its path when
    the directory exists and raises [AssertionError] when it does not.  If
    it does not exist [extensions()] raises, so no descriptor set is
    produced, and the exception is the assertion's whenever the two
    imports before the check succeed.  If it exists and the imports
    succeed, [extensions()] ends as the assembly of the descriptors ends. *)
Theorem pybind_check (env : Env) :
  let pybind := pybind_inc (script_file env) in
  check_pybind env
  = ([], if path_exists env pybind then Ok pybind else Raise AssertionError) /\
  (path_exists env pybind = false ->
   (exists e, outcome extensions env = Raise e) /\
   (importable env "mdtraj" = true -> importable env "numpy" = true ->
    outcome extensions env = Raise AssertionError)) /\
  (path_exists env pybind = true ->
   importable env "mdtraj" = true -> importable env "numpy" = true ->
   outcome extensions env
   = outcome (build_descriptors (importable env "Cython.Build")
                (fst (detect_openmp env)) (snd (detect_openmp env))
                (numpy_include env) pybind) env).
Proof.
  intros pybind. split; [apply check_pybind_run|].
  unfold outcome at 1 2 3. rewrite extensions_run. cbn [snd].
  unfold outcome at 1 2 3. rewrite extensions_body_run. fold pybind. split.
  - intros ->. split.
    + destruct (importable env "mdtraj"), (importable env "numpy"); by eexists.
    + by intros -> ->.
  - by intros -> -> ->.
Qed.

(** The assembly in either mode: the feature step is applied to whatever
    the source-form step returns. *)
Lemma build_descriptors_run (u openmp_enabled needs_gomp : bool)
    (np_inc pybind : string) (env : Env) :
  let exts0 :=
    assemble (mdtraj_include_dir env) (mdtraj_lib_dir env) np_inc pybind
      (if PyStr.startswith (platform env) "win" then "lib" else "") in
  build_descriptors u openmp_enabled needs_gomp np_inc pybind env
  = match outcome (resolve_sources u exts0) env with
    | Ok exts =>
        if openmp_enabled
        then (trace (resolve_sources u exts0) env ++ [Warned "enabled openmp"],
              Ok (add_openmp needs_gomp exts))
        else (trace (resolve_sources u exts0) env, Ok exts)
    | Raise e => (trace (resolve_sources u exts0) env, Raise e)
    end.
Proof.
  intros exts0. unfold build_descriptors. rewrite !bind_ask. fold exts0.
  destruct (outcome (resolve_sources u exts0) env) as [exts|e] eqn:E.
  - rewrite (bind_run _ _ _ (trace (resolve_sources u exts0) env) exts)
      by (by rewrite (run_eta (resolve_sources u exts0) env), E).
    destruct openmp_enabled; unfold trace at 2, outcome at 1; cbn [fst snd];
      [done|by rewrite app_nil_r].
  - by rewrite (bind_run_raise _ _ _ (trace (resolve_sources u exts0) env) e)
      by (by rewrite (run_eta (resolve_sources u exts0) env), E).
Qed.

(** The assembly in fallback mode: the four descriptors with their
    sources rewritten, and the parallel feature on top when detected. *)
Lemma build_descriptors_fallback (openmp_enabled needs_gomp : bool)
    (np_inc pybind : string) (env : Env) :
  let exts :=
    use_pregenerated_c
      (assemble (mdtraj_include_dir env) (mdtraj_lib_dir env) np_inc pybind
         (if PyStr.startswith (platform env) "win" then "lib" else "")) in
  build_descriptors false openmp_enabled needs_gomp np_inc pybind env
  = if openmp_enabled
    then ([Warned "enabled openmp"], Ok (add_openmp needs_gomp exts))
    else ([], Ok exts).
Proof.
  intros exts. unfold build_descriptors. rewrite !bind_ask.
  unfold resolve_sources. cbn [negb]. rewrite bind_ret.
  by destruct openmp_enabled.
Qed.

(** ** The archive-build override *)

Lemma sdist_run_checkout (env : Env) :
  path_exists env ".git" = true ->
  sdist_run env
  = match outcome sdist_cythonize env with
    | Ok _ => (trace sdist_cythonize env ++ [BaseSdistRun], base_sdist_run env)
    | Raise e => (trace sdist_cythonize env, Raise e)
    end.
Proof.
  intros Hgit. unfold sdist_run. rewrite bind_ask, Hgit. cbn [negb].
  destruct (outcome sdist_cythonize env) as [[]|e] eqn:E.
  - rewrite (bind_run _ _ _ (trace sdist_cythonize env) tt)
      by (by rewrite (run_eta sdist_cythonize env), E).
    unfold trace at 2, outcome at 1. by rewrite bind_tell.
  - by rewrite (bind_run_raise _ _ _ (trace sdist_cythonize env) e)
      by (by rewrite (run_eta sdist_cythonize env), E).
Qed.

Lemma sdist_cythonize_without_cython (env : Env) :
  importable env "Cython.Build" = false ->
  sdist_cythonize env = ([Warned "sdist cythonize failed"], Ok tt).
Proof.
  intros Hno. unfold sdist_cythonize, except_ImportError.
  by rewrite (bind_run_raise _ _ _ [] (ImportError "Cython.Build"))
    by (by rewrite import_run, Hno).
Qed.

Lemma sdist_cythonize_with_cython (env : Env) t exts exts' :
  importable env "Cython.Build" = true ->
  extensions env = (t, Ok exts) ->
  cythonize env exts = Ok exts' ->
  sdist_cythonize env
  = ([Imported "Cython.Build"; Printed "cythonizing sources"] ++ t ++ [Cythonized exts],
     Ok tt).
Proof.
  intros Hyes Hext Hcy. unfold sdist_cythonize, except_ImportError.
  rewrite (bind_run _ _ _ [Imported "Cython.Build"] tt) by (by rewrite import_run, Hyes).
  unfold trace, outcome, print. rewrite bind_tell.
  unfold trace, outcome. rewrite (bind_run _ _ _ t exts Hext).
  unfold trace, outcome. rewrite bind_tell.
  unfold trace, outcome, external, bind, ret. by rewrite Hcy.
Qed.

(** The [try] statement never lets an [ImportError] out. *)
Lemma sdist_cythonize_catches_ImportError (env : Env) (m : string) :
  outcome sdist_cythonize env <> Raise (ImportError m).
Proof.
  unfold outcome, sdist_cythonize, except_ImportError.
  match goal with |- context [bind ?a ?k env] => destruct (bind a k env) as [t [[]|e]] end;
    [done|].
  destruct e; done.
Qed.

(** C5.  Outside a checkout ([.git] absent) [sdist.run] prints its message
    and returns [None]: nothing is raised, the translator is not called,
    the extension builder is not entered and the base command is not run. *)
Theorem sdist_run_outside_checkout (env : Env) :
  path_exists env ".git" = false ->
  sdist_run env = ([Printed "Not on git, can not create source distribution"], Ok tt) /\
  (forall exts, Cythonized exts ∉ trace sdist_run env) /\
  (BuilderInvoked ∉ trace sdist_run env) /\
  (BaseSdistRun ∉ trace sdist_run env).
Proof.
  intros Hgit.
  assert (sdist_run env
          = ([Printed "Not on git, can not create source distribution"], Ok tt)) as Hrun.
  { unfold sdist_run. by rewrite bind_ask, Hgit. }
  unfold trace. rewrite Hrun. cbn [fst].
  split; [done|].
  repeat split; [intros exts|..]; rewrite list_elem_of_singleton; discriminate.
Qed.

Lemma sdist_run_outside_checkout_witness :
  sdist_run env_sdist
  = ([Printed "Not on git, can not create source distribution"], Ok tt) /\
  (forall exts, Cythonized exts ∉ trace sdist_run env_sdist) /\
  (BuilderInvoked ∉ trace sdist_run env_sdist) /\
  (BaseSdistRun ∉ trace sdist_run env_sdist).
Proof. apply (sdist_run_outside_checkout env_sdist). reflexivity. Defined.

(** C6.  In a checkout ([.git] present), a failed import of the translator
    inside [sdist.run] is caught and turned into one warning, and the base
    command is run and its result returned; the base command is run just
    the same after a successful translation. *)
Theorem sdist_run_delegates (env : Env) :
  path_exists env ".git" = true ->
  (importable env "Cython.Build" = false ->
   sdist_run env
   = ([Warned "sdist cythonize failed"; BaseSdistRun], base_sdist_run env)) /\
  (forall t exts exts',
     importable env "Cython.Build" = true ->
     extensions env = (t, Ok exts) ->
     cythonize env exts = Ok exts' ->
     sdist_run env
     = ([Imported "Cython.Build"; Printed "cythonizing sources"] ++ t
          ++ [Cythonized exts; BaseSdistRun],
        base_sdist_run env)).
Proof.
  intros Hgit. rewrite (sdist_run_checkout env Hgit). split.
  - intros Hno. unfold outcome, trace.
    by rewrite (sdist_cythonize_without_cython env Hno).
  - intros t exts exts' Hyes Hext Hcy. unfold outcome, trace.
    rewrite (sdist_cythonize_with_cython env t exts exts' Hyes Hext Hcy). cbn [fst snd].
    by rewrite <- !app_assoc.
Qed.

Lemma sdist_run_delegates_witness :
  sdist_run env_broken_checkout
  = ([Warned "sdist cythonize failed"; BaseSdistRun], Ok tt) /\
  (BaseSdistRun ∈ trace sdist_run env_checkout) /\
  outcome sdist_run env_checkout = Ok tt.
Proof.
  split.
  - apply (sdist_run_delegates env_broken_checkout); reflexivity.
  - pose proof (proj2 (sdist_run_delegates env_checkout eq_refl)
                  (trace extensions env_checkout)
                  (default [] (match outcome extensions env_checkout with
                               | Ok l => Some l | Raise _ => None end))
                  (use_pregenerated_c
                     (default [] (match outcome extensions env_checkout with
                                  | Ok l => Some l | Raise _ => None end)))
                  eq_refl eq_refl eq_refl) as H.
    unfold trace at 1, outcome at 1. rewrite H. cbn [fst snd]. split; [|done].
    rewrite !elem_of_app. right. right. apply list_elem_of_In. right. by left.
Defined.

(** ** The branch on [sys.argv] *)

Lemma check_call_run (argv : list string) (env : Env) :
  check_call argv env
  = ([ProcessRun argv],
     match run_process env argv with
     | Exited rc =>
         if decide (rc = 0%Z) then Ok tt else Raise (CalledProcessError rc argv)
     | NotStarted => Raise OSError
     end).
Proof.
  unfold check_call. rewrite bind_tell. unfold trace, outcome. rewrite bind_ask.
  destruct (run_process env argv) as [[| |]|]; reflexivity.
Qed.

Lemma init_submodule_pybind11 : init_submodule "pybind11" = check_call submodule_argv.
Proof. reflexivity. Qed.

Lemma configure_metadata_only argv (md : gmap string pyval) (env : Env) :
  metadata_only argv = true -> configure argv md env = ([], Ok md).
Proof. intros H. unfold configure. by rewrite H. Qed.

Lemma configure_full_build argv (md : gmap string pyval) (env : Env) :
  metadata_only argv = false ->
  configure argv md env
  = if path_exists env ".git"
    then ([Warned "using git, require cython"; ProcessRun submodule_argv],
          match run_process env submodule_argv with
          | Exited rc =>
              if decide (rc = 0%Z) then Ok (full_build_metadata true md)
              else Raise (CalledProcessError rc submodule_argv)
          | NotStarted => Raise OSError
          end)
    else ([], Ok (full_build_metadata false md)).
Proof.
  intros H. unfold configure. rewrite H, bind_ask.
  destruct (path_exists env ".git").
  - unfold dict_iadd.
    rewrite lookup_insert_ne by done. rewrite lookup_insert_eq.
    cbn [for_each]. rewrite init_submodule_pybind11.
    unfold warn, bind at 1 2 3 4 5, tell, ret. rewrite check_call_run.
    unfold full_build_metadata.
    destruct (run_process env submodule_argv) as [rc|]; [|done].
    by destruct (decide (rc = 0%Z)).
  - reflexivity.
Qed.

Lemma main_run argv (md : gmap string pyval) reqs (env : Env) :
  main argv md reqs env
  = match outcome (configure argv md) env with
    | Ok md' =>
        (trace (configure argv md) env
           ++ SetupCalled md' :: trace (serve_all md' None reqs) env,
         outcome (serve_all md' None reqs) env)
    | Raise e => (trace (configure argv md) env, Raise e)
    end.
Proof.
  unfold main. destruct (outcome (configure argv md) env) as [md'|e] eqn:E.
  - rewrite (bind_run _ _ _ (trace (configure argv md) env) md')
      by (by rewrite (run_eta (configure argv md) env), E).
    unfold setup, trace at 2, outcome at 1. by rewrite bind_tell.
  - by rewrite (bind_run_raise _ _ _ (trace (configure argv md) env) e)
      by (by rewrite (run_eta (configure argv md) env), E).
Qed.

(** C9.  In a full (not metadata-only) invocation inside a checkout the
    script warns and runs [git submodule update --init pybind11] through
    [check_call] as the last thing before [setup].  If the subprocess exits
    with a non-zero status, [CalledProcessError] ends the whole invocation
    there: [setup] is not called and nothing is built.  If it exits with
    zero, [setup] is called next. *)
Theorem submodule_init_before_setup argv (md : gmap string pyval) reqs (env : Env) :
  metadata_only argv = false ->
  path_exists env ".git" = true ->
  trace (configure argv md) env
  = [Warned "using git, require cython"; ProcessRun submodule_argv] /\
  (forall rc, run_process env submodule_argv = Exited rc -> rc <> 0%Z ->
     main argv md reqs env
     = ([Warned "using git, require cython"; ProcessRun submodule_argv],
        Raise (CalledProcessError rc submodule_argv))) /\
  (run_process env submodule_argv = Exited 0%Z ->
     main argv md reqs env
     = ([Warned "using git, require cython"; ProcessRun submodule_argv;
         SetupCalled (full_build_metadata true md)]
          ++ trace (serve_all (full_build_metadata true md) None reqs) env,
        outcome (serve_all (full_build_metadata true md) None reqs) env)).
Proof.
  intros Hfull Hgit.
  pose proof (configure_full_build argv md env Hfull) as Hc. rewrite Hgit in Hc.
  split; [unfold trace; by rewrite Hc|]. split.
  - intros rc Hrc Hne. rewrite main_run. unfold outcome at 1, trace.
    rewrite Hc, Hrc. cbn [fst snd]. by destruct (decide (rc = 0%Z)).
  - intros Hrc. rewrite main_run. unfold outcome at 1, trace at 1.
    rewrite Hc, Hrc. reflexivity.
Qed.

Lemma submodule_init_before_setup_witness :
  main ["setup.py"; "build_ext"] (metadata0 "" "2.4" ["pyemma"]) [NeedExtensions]
    env_broken_checkout
  = ([Warned "using git, require cython"; ProcessRun submodule_argv],
     Raise (CalledProcessError 128 submodule_argv)).
Proof.
  apply (submodule_init_before_setup ["setup.py"; "build_ext"]
           (metadata0 "" "2.4" ["pyemma"]) [NeedExtensions] env_broken_checkout
           eq_refl eq_refl).
  - reflexivity.
  - discriminate.
Defined.

Lemma metadata_only_cons2 prog a rest :
  metadata_only (prog :: a :: rest) = true
  <-> "--help" ∈ a :: rest \/ a ∈ first_only_flags.
Proof.
  unfold metadata_only. cbn [length drop lookup list_lookup].
  replace (S (S (length rest)) =? 1)%nat with false by done.
  replace (2 <=? S (S (length rest)))%nat with true by done.
  cbn [orb andb]. change (drop 0 (a :: rest)) with (a :: rest).
  rewrite orb_true_iff, !bool_decide_eq_true. done.
Qed.

(** C10.  The detection of a metadata-only invocation depends on
    position: with at least one argument it holds exactly when ['--help']
    stands anywhere behind the program name or the first argument is one of
    ['--help-commands'], ['--version'], ['clean'].  One of these three
    behind another first argument does not count: [build --version] is a
    full build, whose metadata get [setup_requires] and [ext_modules]. *)
Theorem metadata_only_position_sensitive :
  (forall prog a rest,
     metadata_only (prog :: a :: rest) = true
     <-> "--help" ∈ a :: rest \/ a ∈ first_only_flags) /\
  (forall prog a rest,
     a ∉ "--help" :: first_only_flags -> "--help" ∉ rest ->
     metadata_only (prog :: a :: rest) = false) /\
  (forall prog, metadata_only [prog] = true) /\
  metadata_only ["setup.py"; "build"; "--version"] = false /\
  (forall (md : gmap string pyval) env md',
     outcome (configure ["setup.py"; "build"; "--version"] md) env = Ok md' ->
     md' !! "ext_modules" = Some VLazyExtensions /\
     exists l, md' !! "setup_requires" = Some (VList l)) /\
  (forall (md : gmap string pyval) env,
     path_exists env ".git" = false ->
     outcome (configure ["setup.py"; "build"; "--version"] md) env
     = Ok (full_build_metadata false md)).
Proof.
  split; [exact metadata_only_cons2|].
  split.
  { intros prog a rest Ha Hrest.
    apply not_true_is_false.
    intros [[Heq|H]%elem_of_cons|H]%metadata_only_cons2.
    - apply Ha, elem_of_cons. by left.
    - done.
    - apply Ha, elem_of_cons. by right. }
  split; [done|]. split; [done|].
  assert (metadata_only ["setup.py"; "build"; "--version"] = false) as Hfull by done.
  split.
  - intros md env md'. unfold outcome.
    rewrite (configure_full_build _ md env Hfull).
    unfold full_build_metadata.
    destruct (path_exists env ".git"); cbn [snd].
    + destruct (run_process env submodule_argv) as [rc|]; [|done].
      destruct (decide (rc = 0%Z)); [|done]. intros [= <-].
      rewrite lookup_insert_eq. split; [done|].
      rewrite lookup_insert_ne by done. rewrite lookup_insert_eq. by eexists.
    + intros [= <-]. rewrite lookup_insert_eq. split; [done|].
      rewrite lookup_insert_ne by done. rewrite lookup_insert_ne by done.
      rewrite lookup_insert_eq. by eexists.
  - intros md env Hgit. unfold outcome.
    by rewrite (configure_full_build _ md env Hfull), Hgit.
Qed.

(** ** Metadata-only invocations *)




Lemma run_tests_run args env :
  run_tests args env
  = if importable env "pytest"
    then ([Imported "pytest"; PytestRun args], Raise (SystemExit (pytest_main env args)))
    else ([], Raise (ImportError "pytest")).
Proof.
  unfold run_tests. destruct (importable env "pytest") eqn:E.
  - rewrite (bind_run _ _ _ [Imported "pytest"] tt) by (by rewrite import_run, E).
    unfold trace, outcome. rewrite bind_tell. unfold trace, outcome.
    by rewrite bind_ask.
  - by rewrite (bind_run_raise _ _ _ [] (ImportError "pytest"))
      by (by rewrite import_run, E).
Qed.















(** [clean test] counts as metadata-only as well: the [test] override hands
    the package to pytest and the run ends with pytest's status, here 3. *)
Example metadata_only_clean_test_runs_pytest :
  metadata_only ["setup.py"; "clean"; "test"] = true /\
  main ["setup.py"; "clean"; "test"] (metadata0 "" "2.4" ["pyemma"])
    [RunCommand "clean"; RunCommand "test"] env_installed
  = ([SetupCalled (metadata0 "" "2.4" ["pyemma"]); BaseCommandRun "clean";
      Imported "pytest"; PytestRun ["pyemma"]],
     Raise (SystemExit 3)).
Proof. split; reflexivity. Qed.


(** ** End to end *)

(** The builder on an unpacked source archive without the translator:
    both intermediate-form sources are rewritten and all four descriptors
    carry the parallel flag and define; the linker flag is absent because
    this compiler links the runtime library by itself. *)
Example extensions_on_source_archive :
  extensions env_sdist
  = ([BuilderInvoked; Warned "Cython not found. Using pre cythonized files.";
      Imported "mdtraj"; Imported "numpy"; Warned "enabled openmp"],
     Ok [mkExtension "pyemma.coordinates.clustering._ext"
           ["pyemma/coordinates/clustering/src/clustering_module.cpp"]
           ["C:/mdtraj/include"; "C:/numpy/include"; "pybind11/include";
            "pyemma/coordinates/clustering/include"]
           [("USE_OPENMP", None)] ["libtheobald"] ["C:/mdtraj/lib"]
           ["-std=c++11"; "-O3"; "-fvisibility=hidden"; "-fopenmp"] [] (Some "c++");
         mkExtension "pyemma._ext.variational.estimators.covar_c._covartools"
           ["pyemma/_ext/variational/estimators/covar_c/covartools.cpp"]
           ["pyemma/_ext/variational/estimators/covar_c/"; "C:/numpy/include";
            "pybind11/include"]
           [("USE_OPENMP", None)] [] []
           ["-std=c++11"; "-O3"; "-fvisibility=hidden"; "-fopenmp"] [] None;
         mkExtension "pyemma._ext.variational.solvers.eig_qr.eig_qr"
           ["pyemma/_ext/variational/solvers/eig_qr/eig_qr.c"]
           ["pyemma/_ext/variational/solvers/eig_qr/"; "C:/numpy/include"]
           [("USE_OPENMP", None)] [] []
           ["-std=c99"; "-O3"; "-fopenmp"] [] None;
         mkExtension "pyemma._ext.orderedset._orderedset"
           ["pyemma/_ext/orderedset/_orderedset.c"]
           ["C:/numpy/include"]
           [("USE_OPENMP", None)] [] []
           ["-O3"; "-fopenmp"] [] None]).
Proof. reflexivity. Qed.

(** In fallback mode the builder succeeds whenever the two libraries can
    be imported and the bundled headers are there. *)
Lemma extensions_fallback_succeeds (env : Env) :
  importable env "Cython.Build" = false ->
  importable env "mdtraj" = true ->
  importable env "numpy" = true ->
  path_exists env (pybind_inc (script_file env)) = true ->
  exists exts,
    outcome extensions env = Ok exts /\
    Forall2 (fun e0 e => sources e = map (PyStr.replace ".pyx" ".c") (sources e0))
      (assemble (mdtraj_include_dir env) (mdtraj_lib_dir env) (numpy_include env)
         (pybind_inc (script_file env))
         (if PyStr.startswith (platform env) "win" then "lib" else ""))
      exts.
Proof.
  intros Hcy Hmd Hnp Hpb.
  unfold outcome. rewrite extensions_run. cbn [snd].
  unfold outcome. rewrite extensions_body_run, Hcy, Hmd, Hnp, Hpb. cbn [snd].
  unfold outcome. rewrite build_descriptors_fallback.
  destruct (fst (detect_openmp env)); cbn [snd]; eexists; (split; [reflexivity|]);
    repeat constructor.
Qed.

(** A full build outside a checkout: the extension list is built when the
    framework first needs it, and only then. *)
Example lazy_extensions_built_once :
  let md := metadata0 "" "2.4" ["pyemma"] in
  main ["setup.py"; "build_ext"] md
    [RunCommand "egg_info"; NeedExtensions; NeedExtensions; RunCommand "build_ext"]
    env_sdist
  = ([SetupCalled (full_build_metadata false md);
      BaseCommandRun "egg_info";
      BuilderInvoked; Warned "Cython not found. Using pre cythonized files.";
      Imported "mdtraj"; Imported "numpy"; Warned "enabled openmp";
      BaseCommandRun "build_ext"],
     Ok tt).
Proof. reflexivity. Qed.

(** * Further properties of the script *)

(** ** The two steps on descriptor sets *)

Lemma replace_pyx_idempotent s :
  PyStr.replace ".pyx" ".c" (PyStr.replace ".pyx" ".c" s) = PyStr.replace ".pyx" ".c" s.
Proof.
  change (PyStr.replace ".pyx" ".c" ?x) with (PyStr.replace_from ".pyx" ".c" 0 x).
  apply replace_from_absent, replace_from_free.
Qed.

(** X1.  Whatever the descriptor set, after the fallback rewrite no source
    path contains ['.pyx'] any more, every descriptor has as many sources
    as before and is otherwise the descriptor it was, and running the
    rewrite again changes nothing. *)
Theorem use_pregenerated_c_settles (exts : list Extension) :
  Forall (fun e => Forall (fun s => PyStr.contains ".pyx" s = false) (sources e))
    (use_pregenerated_c exts) /\
  Forall2 (fun e e' =>
             length (sources e') = length (sources e) /\
             e' = set_sources e (sources e'))
    exts (use_pregenerated_c exts) /\
  use_pregenerated_c (use_pregenerated_c exts) = use_pregenerated_c exts.
Proof.
  unfold use_pregenerated_c. split; [|split].
  - apply Forall_map, Forall_forall. intros e _. cbn [sources set_sources].
    apply Forall_map, Forall_forall. intros s _. apply replace_from_free.
  - induction exts as [|e exts IH]; [constructor|].
    cbn [map]. constructor; [|exact IH]. cbn [sources set_sources].
    by rewrite length_map.
  - rewrite map_map. apply map_ext. intros e. unfold set_sources. cbn.
    f_equal. rewrite map_map. apply map_ext. intros s. apply replace_pyx_idempotent.
Qed.

(** X2.  The source-form step changes sources only and the feature step
    changes flags only, so the two commute on every descriptor set. *)
Theorem use_pregenerated_c_add_openmp_commute (needs_gomp : bool) (exts : list Extension) :
  add_openmp needs_gomp (use_pregenerated_c exts)
  = use_pregenerated_c (add_openmp needs_gomp exts) /\
  Forall2 (fun e e' => sources e' = sources e) exts (add_openmp needs_gomp exts) /\
  Forall2 (fun e e' =>
             extra_compile_args e' = extra_compile_args e /\
             extra_link_args e' = extra_link_args e /\
             define_macros e' = define_macros e)
    exts (use_pregenerated_c exts).
Proof.
  unfold add_openmp, use_pregenerated_c. split; [|split].
  - rewrite !map_map. apply map_ext. by intros [].
  - induction exts as [|e exts IH]; cbn [map]; by constructor.
  - induction exts as [|e exts IH]; cbn [map]; by constructor.
Qed.

(** X3.  The feature step has no guard against flags that are already
    there: applied to its own result it appends everything a second time,
    so on a non-empty descriptor set it is not idempotent. *)
Theorem add_openmp_twice (needs_gomp : bool) (exts : list Extension) :
  Forall2 (fun e e' =>
             extra_compile_args e' = extra_compile_args e ++ ["-fopenmp"; "-fopenmp"] /\
             extra_link_args e'
             = extra_link_args e ++ (if needs_gomp then ["-lgomp"; "-lgomp"] else []) /\
             define_macros e'
             = define_macros e ++ [("USE_OPENMP", None); ("USE_OPENMP", None)])
    exts (add_openmp needs_gomp (add_openmp needs_gomp exts)) /\
  (add_openmp needs_gomp (add_openmp needs_gomp exts) = add_openmp needs_gomp exts
   <-> exts = []).
Proof.
  split.
  - unfold add_openmp. induction exts as [|e exts IH]; cbn [map]; constructor; [|exact IH].
    cbn. rewrite <- !app_assoc. by destruct needs_gomp.
  - split; [|by intros ->].
    destruct exts as [|e exts]; [done|]. unfold add_openmp. cbn [map].
    intros [= H _ _]. exfalso.
    apply (f_equal length) in H. rewrite !length_app in H. cbn in H. lia.
Qed.

(** ** The extension builder, case by case *)

Lemma trace_probe_cython env : trace probe_cython env = [probe_event env].
Proof.
  unfold trace, probe_event. rewrite probe_cython_run.
  by destruct (importable env "Cython.Build").
Qed.

(** [extensions()] up to the assembly, in one table. *)
Lemma extensions_cases (env : Env) :
  extensions env
  = if negb (importable env "mdtraj")
    then ([BuilderInvoked; probe_event env], Raise (ImportError "mdtraj"))
    else if negb (importable env "numpy")
    then ([BuilderInvoked; probe_event env; Imported "mdtraj"],
          Raise (ImportError "numpy"))
    else if negb (path_exists env (pybind_inc (script_file env)))
    then ([BuilderInvoked; probe_event env; Imported "mdtraj"; Imported "numpy"],
          Raise AssertionError)
    else
      let build :=
        build_descriptors (importable env "Cython.Build") (fst (detect_openmp env))
          (snd (detect_openmp env)) (numpy_include env)
          (pybind_inc (script_file env)) in
      ([BuilderInvoked; probe_event env; Imported "mdtraj"; Imported "numpy"]
         ++ trace build env,
       outcome build env).
Proof.
  rewrite extensions_run, trace_probe_cython.
  unfold trace at 1, outcome at 1. rewrite extensions_body_run.
  destruct (importable env "mdtraj"); [|done].
  destruct (importable env "numpy"); [|done].
  by destruct (path_exists env (pybind_inc (script_file env))).
Qed.

(** X4.  [extensions()] fails in a fixed order: a missing mdtraj is
    reported before numpy is tried, a missing numpy before the bundled
    headers are looked for, and missing headers before any descriptor is
    assembled or translated.  The translator probe has run by then and
    never decides the failure; a descriptor set is returned only if all
    three are there. *)
Theorem extensions_failure_order (env : Env) :
  (importable env "mdtraj" = false ->
   extensions env = ([BuilderInvoked; probe_event env], Raise (ImportError "mdtraj"))) /\
  (importable env "mdtraj" = true -> importable env "numpy" = false ->
   extensions env
   = ([BuilderInvoked; probe_event env; Imported "mdtraj"],
      Raise (ImportError "numpy"))) /\
  (importable env "mdtraj" = true -> importable env "numpy" = true ->
   path_exists env (pybind_inc (script_file env)) = false ->
   extensions env
   = ([BuilderInvoked; probe_event env; Imported "mdtraj"; Imported "numpy"],
      Raise AssertionError)) /\
  (forall exts, outcome extensions env = Ok exts ->
     importable env "mdtraj" = true /\ importable env "numpy" = true /\
     path_exists env (pybind_inc (script_file env)) = true).
Proof.
  rewrite (run_eta extensions env). unfold trace, outcome. rewrite extensions_cases.
  destruct (importable env "mdtraj"), (importable env "numpy"),
    (path_exists env (pybind_inc (script_file env))); cbn [negb fst snd];
    repeat split; try done; intros; done.
Qed.

(** [extensions()] with the translator, in one equation. *)
Lemma extensions_translator_run (env : Env) :
  importable env "Cython.Build" = true ->
  importable env "mdtraj" = true ->
  importable env "numpy" = true ->
  path_exists env (pybind_inc (script_file env)) = true ->
  extensions env
  = ([BuilderInvoked; Imported "Cython.Build"; Imported "mdtraj"; Imported "numpy";
      Cythonized (assembled env)]
       ++ match cythonize env (assembled env) with
          | Ok _ => if fst (detect_openmp env) then [Warned "enabled openmp"] else []
          | Raise _ => []
          end,
     match cythonize env (assembled env) with
     | Ok exts =>
         Ok (if fst (detect_openmp env)
             then add_openmp (snd (detect_openmp env)) exts
             else exts)
     | Raise e => Raise e
     end).
Proof.
  intros Hcy Hmd Hnp Hpb. rewrite extensions_cases, Hmd, Hnp, Hpb. cbn [negb].
  unfold probe_event. rewrite Hcy. cbv zeta.
  unfold trace, outcome. rewrite build_descriptors_run. fold (assembled env).
  unfold outcome, trace, resolve_sources. cbn [negb]. rewrite bind_tell.
  unfold trace, outcome, external. cbn [fst snd].
  destruct (cythonize env (assembled env)) as [exts|e]; [|done].
  destruct (fst (detect_openmp env)); cbn [fst snd]; [done|by rewrite app_nil_r].
Qed.

(** X5.  With the translator importable, the libraries present and the
    headers in place, the result of [extensions()] is decided by
    [cythonize], which is called once on the four assembled descriptors:
    its exception is the exception of [extensions()], with no warning about
    the parallel feature, and its result is returned with the parallel
    feature added when that is detected. *)
Theorem extensions_with_translator (env : Env) :
  importable env "Cython.Build" = true ->
  importable env "mdtraj" = true ->
  importable env "numpy" = true ->
  path_exists env (pybind_inc (script_file env)) = true ->
  (forall e, cythonize env (assembled env) = Raise e ->
     extensions env
     = ([BuilderInvoked; Imported "Cython.Build"; Imported "mdtraj"; Imported "numpy";
         Cythonized (assembled env)],
        Raise e)) /\
  (forall exts, cythonize env (assembled env) = Ok exts ->
     outcome extensions env
     = Ok (if fst (detect_openmp env)
           then add_openmp (snd (detect_openmp env)) exts
           else exts)).
Proof.
  intros Hcy Hmd Hnp Hpb.
  pose proof (extensions_translator_run env Hcy Hmd Hnp Hpb) as Hrun. split.
  - intros e He. rewrite Hrun, He. by rewrite app_nil_r.
  - intros exts He. unfold outcome. by rewrite Hrun, He.
Qed.

Lemma extensions_with_translator_witness :
  outcome extensions env_checkout
  = Ok (add_openmp true (use_pregenerated_c (assembled env_checkout))).
Proof.
  by apply (extensions_with_translator env_checkout eq_refl eq_refl eq_refl eq_refl).
Defined.

(** X6.  Without the translator [extensions()] returns a descriptor set
    exactly when mdtraj and numpy can be imported and the bundled headers
    exist; what it returns are the four descriptors of the script, none
    with ['.pyx'] left in a source path, carrying the parallel feature
    exactly when it was detected. *)
Theorem extensions_fallback_iff (env : Env) :
  importable env "Cython.Build" = false ->
  ((exists exts, outcome extensions env = Ok exts)
   <-> importable env "mdtraj" = true /\ importable env "numpy" = true /\
       path_exists env (pybind_inc (script_file env)) = true) /\
  (forall exts, outcome extensions env = Ok exts ->
     exts = (if fst (detect_openmp env)
             then add_openmp (snd (detect_openmp env))
                    (use_pregenerated_c (assembled env))
             else use_pregenerated_c (assembled env)) /\
     map name exts
     = ["pyemma.coordinates.clustering._ext";
        "pyemma._ext.variational.estimators.covar_c._covartools";
        "pyemma._ext.variational.solvers.eig_qr.eig_qr";
        "pyemma._ext.orderedset._orderedset"] /\
     Forall (fun e => Forall (fun s => PyStr.contains ".pyx" s = false) (sources e))
       exts).
Proof.
  intros Hcy. unfold outcome. rewrite extensions_cases, Hcy.
  destruct (importable env "mdtraj"); cbn [negb];
    [|split; [split; [by intros [? ?]|by intros (? & _)]|done]].
  destruct (importable env "numpy"); cbn [negb];
    [|split; [split; [by intros [? ?]|by intros (_ & ? & _)]|done]].
  destruct (path_exists env (pybind_inc (script_file env))); cbn [negb];
    [|split; [split; [by intros [? ?]|by intros (_ & _ & ?)]|done]].
  cbv zeta. cbn [snd]. unfold outcome. rewrite build_descriptors_fallback.
  fold (assembled env). split.
  - split; [done|]. intros _. destruct (fst (detect_openmp env)); by eexists.
  - intros exts Hexts.
    assert (exts = (if fst (detect_openmp env)
                    then add_openmp (snd (detect_openmp env))
                           (use_pregenerated_c (assembled env))
                    else use_pregenerated_c (assembled env))) as ->.
    { destruct (fst (detect_openmp env)); cbn [snd] in Hexts; congruence. }
    split; [done|]. split; [by destruct (fst (detect_openmp env))|].
    destruct (fst (detect_openmp env)); repeat constructor.
Qed.

Lemma extensions_fallback_iff_witness :
  (exists exts, outcome extensions env_sdist = Ok exts) /\
  ~ (exists exts, outcome extensions env_broken_checkout = Ok exts).
Proof.
  split.
  - apply (extensions_fallback_iff env_sdist eq_refl). by repeat split.
  - intros H. apply (extensions_fallback_iff env_broken_checkout eq_refl) in H.
    by destruct H as (_ & _ & ?).
Defined.

(** ** More of the archive-build override *)

Lemma sdist_cythonize_run (env : Env) :
  importable env "Cython.Build" = true ->
  sdist_cythonize env
  = match outcome extensions env with
    | Ok exts =>
        ([Imported "Cython.Build"; Printed "cythonizing sources"]
           ++ trace extensions env ++ [Cythonized exts]
           ++ match cythonize env exts with
              | Raise (ImportError _) => [Warned "sdist cythonize failed"]
              | _ => []
              end,
         match cythonize env exts with
         | Ok _ => Ok tt
         | Raise (ImportError _) => Ok tt
         | Raise e => Raise e
         end)
    | Raise (ImportError _) =>
        ([Imported "Cython.Build"; Printed "cythonizing sources"]
           ++ trace extensions env ++ [Warned "sdist cythonize failed"],
         Ok tt)
    | Raise e =>
        ([Imported "Cython.Build"; Printed "cythonizing sources"]
           ++ trace extensions env,
         Raise e)
    end.
Proof.
  intros Hyes.
  unfold sdist_cythonize, except_ImportError, bind, import, ask, tell, print,
    external, ret, warn, raise, trace, outcome.
  cbn -[extensions]. rewrite Hyes. cbn -[extensions].
  destruct (extensions env) as [t [exts|e]]; cbn -[extensions].
  - destruct (cythonize env exts) as [exts'|[]]; cbn; by rewrite ?app_nil_r, <- ?app_assoc.
  - destruct e; cbn; by rewrite ?app_nil_r.
Qed.

(** X7.  In a checkout with the translator installed, a missing mdtraj or
    numpy does not stop [sdist]: the [ImportError] raised inside
    [extensions()] is caught by the same [except] clause, one warning is
    issued, nothing is translated and the base command builds the
    archive. *)
Theorem sdist_run_swallows_provider_ImportError (env : Env) :
  path_exists env ".git" = true ->
  importable env "Cython.Build" = true ->
  importable env "mdtraj" = false \/ importable env "numpy" = false ->
  sdist_run env
  = ([Imported "Cython.Build"; Printed "cythonizing sources";
      BuilderInvoked; Imported "Cython.Build"]
       ++ (if importable env "mdtraj" then [Imported "mdtraj"] else [])
       ++ [Warned "sdist cythonize failed"; BaseSdistRun],
     base_sdist_run env) /\
  (forall exts, Cythonized exts ∉ trace sdist_run env).
Proof.
  intros Hgit Hcy Hmissing.
  assert (sdist_run env
          = ([Imported "Cython.Build"; Printed "cythonizing sources";
              BuilderInvoked; Imported "Cython.Build"]
               ++ (if importable env "mdtraj" then [Imported "mdtraj"] else [])
               ++ [Warned "sdist cythonize failed"; BaseSdistRun],
             base_sdist_run env)) as Hrun.
  { rewrite (sdist_run_checkout env Hgit). unfold outcome at 1, trace at 1 2.
    rewrite (sdist_cythonize_run env Hcy). unfold outcome, trace.
    rewrite extensions_cases. unfold probe_event. rewrite Hcy.
    destruct (importable env "mdtraj"); cbn [negb]; [|done].
    destruct Hmissing as [?|Hnp]; [done|]. by rewrite Hnp. }
  split; [exact Hrun|].
  intros exts. unfold trace. rewrite Hrun. cbn [fst].
  destruct (importable env "mdtraj"); cbn;
    rewrite !not_elem_of_cons; repeat split; try done; apply not_elem_of_nil.
Qed.

Lemma sdist_run_swallows_provider_ImportError_witness :
  sdist_run env_checkout_no_mdtraj
  = ([Imported "Cython.Build"; Printed "cythonizing sources";
      BuilderInvoked; Imported "Cython.Build";
      Warned "sdist cythonize failed"; BaseSdistRun],
     Ok tt).
Proof.
  apply (sdist_run_swallows_provider_ImportError env_checkout_no_mdtraj eq_refl eq_refl).
  by left.
Defined.

Lemma resolve_sources_run (u : bool) (exts : list Extension) (env : Env) :
  resolve_sources u exts env
  = if u then ([Cythonized exts], cythonize env exts)
    else ([], Ok (use_pregenerated_c exts)).
Proof.
  unfold resolve_sources. destruct u; cbn [negb]; [|done].
  by rewrite bind_tell.
Qed.

Lemma extensions_never_runs_base (env : Env) : BaseSdistRun ∉ trace extensions env.
Proof.
  unfold trace. rewrite extensions_cases. unfold probe_event.
  destruct (importable env "mdtraj"), (importable env "numpy"),
    (path_exists env (pybind_inc (script_file env))); cbn [negb fst];
    destruct (importable env "Cython.Build");
    rewrite ?not_elem_of_app, !not_elem_of_cons;
    repeat split; try done; try apply not_elem_of_nil.
  all: unfold trace; rewrite build_descriptors_run; unfold outcome, trace.
  all: rewrite resolve_sources_run; cbn [fst snd].
  - destruct (cythonize env _); [destruct (fst (detect_openmp env))|]; cbn [fst];
      rewrite ?not_elem_of_app, ?not_elem_of_cons; repeat split; try done;
      apply not_elem_of_nil.
  - destruct (fst (detect_openmp env)); cbn [fst];
      rewrite ?not_elem_of_app, ?not_elem_of_cons; repeat split; try done;
      apply not_elem_of_nil.
Qed.

Ltac not_in_trace :=
  repeat (rewrite not_elem_of_app || rewrite not_elem_of_cons);
  repeat split; try done; try apply not_elem_of_nil; try assumption.

(** [sdist.run] in a checkout with the translator installed, case by case. *)
Lemma sdist_run_with_translator (env : Env) :
  path_exists env ".git" = true ->
  importable env "Cython.Build" = true ->
  (trace sdist_run env, outcome sdist_run env)
  = match outcome extensions env with
    | Ok exts =>
        match cythonize env exts with
        | Ok _ =>
            ([Imported "Cython.Build"; Printed "cythonizing sources"]
               ++ trace extensions env ++ [Cythonized exts; BaseSdistRun],
             base_sdist_run env)
        | Raise (ImportError _) =>
            ([Imported "Cython.Build"; Printed "cythonizing sources"]
               ++ trace extensions env
               ++ [Cythonized exts; Warned "sdist cythonize failed"; BaseSdistRun],
             base_sdist_run env)
        | Raise e =>
            ([Imported "Cython.Build"; Printed "cythonizing sources"]
               ++ trace extensions env ++ [Cythonized exts],
             Raise e)
        end
    | Raise (ImportError _) =>
        ([Imported "Cython.Build"; Printed "cythonizing sources"]
           ++ trace extensions env ++ [Warned "sdist cythonize failed"; BaseSdistRun],
         base_sdist_run env)
    | Raise e =>
        ([Imported "Cython.Build"; Printed "cythonizing sources"]
           ++ trace extensions env,
         Raise e)
    end.
Proof.
  intros Hgit Hcy. rewrite <- run_eta, (sdist_run_checkout env Hgit).
  unfold outcome at 1, trace at 1 2. rewrite (sdist_cythonize_run env Hcy).
  destruct (outcome extensions env) as [exts|e].
  - destruct (cythonize env exts) as [exts'|e]; [|destruct e]; cbn [fst snd];
      by rewrite <- ?app_assoc.
  - destruct e; cbn [fst snd]; by rewrite <- ?app_assoc.
Qed.

(** X8.  Only [ImportError] is caught.  In a checkout with the translator
    installed, any other exception of [extensions()] (the failed assertion
    on the bundled headers among them) or of [cythonize] leaves [sdist.run]
    as it is, and the base command is not run: no archive is built. *)
Theorem sdist_run_propagates_other_errors (env : Env) :
  path_exists env ".git" = true ->
  importable env "Cython.Build" = true ->
  (forall e, outcome extensions env = Raise e ->
     (forall m, e <> ImportError m) ->
     outcome sdist_run env = Raise e /\ BaseSdistRun ∉ trace sdist_run env) /\
  (forall exts e, outcome extensions env = Ok exts ->
     cythonize env exts = Raise e ->
     (forall m, e <> ImportError m) ->
     outcome sdist_run env = Raise e /\ BaseSdistRun ∉ trace sdist_run env) /\
  (importable env "mdtraj" = true -> importable env "numpy" = true ->
   path_exists env (pybind_inc (script_file env)) = false ->
   outcome sdist_run env = Raise AssertionError /\
   BaseSdistRun ∉ trace sdist_run env).
Proof.
  intros Hgit Hcy.
  pose proof (extensions_never_runs_base env) as Hext.
  pose proof (sdist_run_with_translator env Hgit Hcy) as Hrun.
  assert (forall e, outcome extensions env = Raise e ->
            (forall m, e <> ImportError m) ->
            outcome sdist_run env = Raise e /\ BaseSdistRun ∉ trace sdist_run env) as H1.
  { intros e He Hne. rewrite He in Hrun.
    destruct e; try (by edestruct Hne); injection Hrun as -> ->;
      (split; [done|]); not_in_trace. }
  split; [exact H1|]. split.
  - intros exts e Hexts He Hne. rewrite Hexts, He in Hrun.
    destruct e; try (by edestruct Hne); injection Hrun as -> ->;
      (split; [done|]); not_in_trace.
  - intros Hmd Hnp Hpb. apply H1; [|done].
    unfold outcome. by rewrite extensions_cases, Hmd, Hnp, Hpb.
Qed.

Lemma sdist_run_propagates_other_errors_witness :
  outcome sdist_run env_checkout_no_headers = Raise AssertionError /\
  BaseSdistRun ∉ trace sdist_run env_checkout_no_headers.
Proof.
  by apply (sdist_run_propagates_other_errors env_checkout_no_headers eq_refl eq_refl).
Defined.

(** X9.  When everything is in place, [sdist.run] has the translator run
    twice: once inside [extensions()] on the four assembled descriptors,
    and once more by [sdist.run] itself on what [extensions()] returned,
    that is on the already translated descriptors with the parallel flags
    added. *)
Theorem sdist_run_translates_twice (env : Env) (exts1 : list Extension) :
  path_exists env ".git" = true ->
  importable env "Cython.Build" = true ->
  importable env "mdtraj" = true ->
  importable env "numpy" = true ->
  path_exists env (pybind_inc (script_file env)) = true ->
  cythonize env (assembled env) = Ok exts1 ->
  let exts2 :=
    if fst (detect_openmp env) then add_openmp (snd (detect_openmp env)) exts1
    else exts1 in
  trace sdist_run env
  = [Imported "Cython.Build"; Printed "cythonizing sources"; BuilderInvoked;
     Imported "Cython.Build"; Imported "mdtraj"; Imported "numpy";
     Cythonized (assembled env)]
      ++ (if fst (detect_openmp env) then [Warned "enabled openmp"] else [])
      ++ Cythonized exts2
      :: match cythonize env exts2 with
         | Ok _ => [BaseSdistRun]
         | Raise (ImportError _) => [Warned "sdist cythonize failed"; BaseSdistRun]
         | Raise _ => []
         end.
Proof.
  intros Hgit Hcy Hmd Hnp Hpb Hc exts2.
  pose proof (sdist_run_with_translator env Hgit Hcy) as Hrun.
  pose proof (extensions_translator_run env Hcy Hmd Hnp Hpb) as Hext.
  rewrite Hc in Hext. fold exts2 in Hext.
  unfold outcome, trace in Hrun. rewrite Hext in Hrun. cbn [fst snd] in Hrun.
  destruct (cythonize env exts2) as [exts3|e]; [|destruct e];
    injection Hrun as Ht _; unfold trace; rewrite Ht; cbn [app];
    by rewrite <- ?app_assoc.
Qed.

Lemma sdist_run_translates_twice_witness :
  trace sdist_run env_checkout
  = [Imported "Cython.Build"; Printed "cythonizing sources"; BuilderInvoked;
     Imported "Cython.Build"; Imported "mdtraj"; Imported "numpy";
     Cythonized (assembled env_checkout); Warned "enabled openmp";
     Cythonized (add_openmp true (use_pregenerated_c (assembled env_checkout)));
     BaseSdistRun].
Proof.
  exact (sdist_run_translates_twice env_checkout
           (use_pregenerated_c (assembled env_checkout))
           eq_refl eq_refl eq_refl eq_refl eq_refl eq_refl).
Defined.

(** ** The test-run override *)

(** X10.  [PyTest.run_tests] never returns: without pytest it raises
    [ImportError] and runs nothing; with pytest it runs it once on the
    given arguments and leaves through [sys.exit] with pytest's return
    value, zero included.  Whatever would come after it is not run. *)
Theorem run_tests_always_exits (args : list string) (env : Env) :
  (forall v, outcome (run_tests args) env <> Ok v) /\
  (importable env "pytest" = true ->
   run_tests args env
   = ([Imported "pytest"; PytestRun args], Raise (SystemExit (pytest_main env args)))) /\
  (importable env "pytest" = false ->
   run_tests args env = ([], Raise (ImportError "pytest"))) /\
  (forall (B : Type) (k : unit -> M B),
     trace (bind (run_tests args) k) env = trace (run_tests args) env).
Proof.
  pose proof (run_tests_run args env) as Hrun.
  split; [|split; [|split]].
  - intros v. unfold outcome. rewrite Hrun. by destruct (importable env "pytest").
  - intros Hpy. by rewrite Hrun, Hpy.
  - intros Hpy. by rewrite Hrun, Hpy.
  - intros B k. rewrite trace_bind. unfold outcome. rewrite Hrun.
    destruct (importable env "pytest"); cbn [snd]; by rewrite app_nil_r.
Qed.

(** ** The command classes *)

(** X11.  [get_cmdclass()] needs versioneer to offer an [sdist] class and
    raises [KeyError] otherwise, before anything is imported; it then needs
    [setuptools.command.test] and raises [ImportError] without it.  When it
    returns, [sdist] is the override built on versioneer's own [sdist]
    class, [test] is [PyTest], and every other command of versioneer is
    the one it was. *)
Theorem get_cmdclass_cases (versioneer_cmds : gmap string command_class) (env : Env) :
  (versioneer_cmds !! "sdist" = None ->
   get_cmdclass versioneer_cmds env = ([], Raise (KeyError "sdist"))) /\
  (is_Some (versioneer_cmds !! "sdist") ->
   importable env "setuptools.command.test" = false ->
   get_cmdclass versioneer_cmds env
   = ([], Raise (ImportError "setuptools.command.test"))) /\
  (forall sdist_class,
     versioneer_cmds !! "sdist" = Some sdist_class ->
     importable env "setuptools.command.test" = true ->
     exists cmds,
       get_cmdclass versioneer_cmds env
       = ([Imported "setuptools.command.test"], Ok cmds) /\
       cmds !! "sdist" = Some (SdistOverride sdist_class) /\
       cmds !! "test" = Some PyTestCommand /\
       forall c, c <> "sdist" -> c <> "test" -> cmds !! c = versioneer_cmds !! c).
Proof.
  unfold get_cmdclass. split; [|split].
  - by intros ->.
  - intros [sdist_class ->] Hno.
    by rewrite (bind_run_raise _ _ _ [] (ImportError "setuptools.command.test"))
      by (by rewrite import_run, Hno).
  - intros sdist_class -> Hyes.
    rewrite (bind_run _ _ _ [Imported "setuptools.command.test"] tt)
      by (by rewrite import_run, Hyes).
    eexists. split; [reflexivity|]. split; [|split].
    + rewrite lookup_insert_ne by done. by rewrite lookup_insert_eq.
    + by rewrite lookup_insert_eq.
    + intros c Hs Ht. by rewrite !lookup_insert_ne by done.
Qed.

(** ** The head of the script *)

(** The head of the script, case by case. *)
Lemma preamble_run readme version packages
    (versioneer_cmds : gmap string command_class) (env : Env) :
  preamble readme version packages versioneer_cmds env
  = if negb (importable env "versioneer")
    then ([], Raise (ImportError "versioneer"))
    else if negb (importable env "setup_util")
    then ([Imported "versioneer"], Raise (ImportError "setup_util"))
    else if negb (importable env "setuptools")
    then ([Imported "versioneer"; Imported "setup_util";
           Printed "PyEMMA requires setuptools. Please install it with conda or pip."],
          Raise (SystemExit 1))
    else
      match readme with
      | None => (head_imports, Raise OSError)
      | Some text =>
          (head_imports ++ trace (get_cmdclass versioneer_cmds) env,
           match outcome (get_cmdclass versioneer_cmds) env with
           | Ok _ => Ok (metadata0 text version packages)
           | Raise e => Raise e
           end)
      end.
Proof.
  unfold preamble, head_imports, bind, import, ask, tell, except_ImportError, print,
    raise, ret, trace, outcome.
  cbn -[get_cmdclass metadata0].
  destruct (importable env "versioneer"); cbn -[get_cmdclass metadata0]; [|done].
  destruct (importable env "setup_util"); cbn -[get_cmdclass metadata0]; [|done].
  destruct (importable env "setuptools"); cbn -[get_cmdclass metadata0]; [|done].
  destruct readme as [text|]; cbn -[get_cmdclass metadata0]; [|done].
  destruct (get_cmdclass versioneer_cmds env) as [t [cmds|e]]; cbn -[metadata0];
    [by rewrite app_nil_r|done].
Qed.

Lemma script_run argv readme version packages
    (versioneer_cmds : gmap string command_class) reqs (env : Env) :
  script argv readme version packages versioneer_cmds reqs env
  = match outcome (preamble readme version packages versioneer_cmds) env with
    | Ok md =>
        (trace (preamble readme version packages versioneer_cmds) env
           ++ trace (main argv md reqs) env,
         outcome (main argv md reqs) env)
    | Raise e => (trace (preamble readme version packages versioneer_cmds) env, Raise e)
    end.
Proof.
  unfold script.
  destruct (outcome (preamble readme version packages versioneer_cmds) env)
    as [md|e] eqn:E.
  - by rewrite (bind_run _ _ _ _ md (eq_trans (run_eta _ env) (f_equal _ E))).
  - by rewrite (bind_run_raise _ _ _ _ e (eq_trans (run_eta _ env) (f_equal _ E))).
Qed.

(** X12.  Without setuptools the script prints its request to install it
    and exits with status 1, whatever the command line: [setup] is not
    called and nothing after the guarded import is evaluated. *)
Theorem script_without_setuptools argv readme version packages
    (versioneer_cmds : gmap string command_class) reqs (env : Env) :
  importable env "versioneer" = true ->
  importable env "setup_util" = true ->
  importable env "setuptools" = false ->
  script argv readme version packages versioneer_cmds reqs env
  = ([Imported "versioneer"; Imported "setup_util";
      Printed "PyEMMA requires setuptools. Please install it with conda or pip."],
     Raise (SystemExit 1)).
Proof.
  intros Hv Hu Hs. rewrite script_run. unfold outcome, trace.
  by rewrite preamble_run, Hv, Hu, Hs.
Qed.

Lemma script_without_setuptools_witness :
  script ["setup.py"; "install"] (Some "PyEMMA") "2.4" ["pyemma"] versioneer_cmds0
    [RunCommand "install"] env_no_setuptools
  = ([Imported "versioneer"; Imported "setup_util";
      Printed "PyEMMA requires setuptools. Please install it with conda or pip."],
     Raise (SystemExit 1)).
Proof.
  by apply (script_without_setuptools ["setup.py"; "install"] (Some "PyEMMA") "2.4"
              ["pyemma"] versioneer_cmds0 [RunCommand "install"] env_no_setuptools).
Defined.

(** X13.  The metadata are built before the command line is looked at, so
    every invocation, a metadata-only one included, reads [README.rst] and
    calls [get_cmdclass()]: if the file cannot be read, or versioneer has no
    [sdist] class, or [setuptools.command.test] cannot be imported, the
    script ends in that error without calling [setup]. *)
Theorem script_fails_before_argv argv readme version packages
    (versioneer_cmds : gmap string command_class) reqs (env : Env) :
  importable env "versioneer" = true ->
  importable env "setup_util" = true ->
  importable env "setuptools" = true ->
  (readme = None ->
   script argv readme version packages versioneer_cmds reqs env
   = (head_imports, Raise OSError)) /\
  (is_Some readme -> versioneer_cmds !! "sdist" = None ->
   script argv readme version packages versioneer_cmds reqs env
   = (head_imports, Raise (KeyError "sdist"))) /\
  (is_Some readme -> is_Some (versioneer_cmds !! "sdist") ->
   importable env "setuptools.command.test" = false ->
   script argv readme version packages versioneer_cmds reqs env
   = (head_imports, Raise (ImportError "setuptools.command.test"))).
Proof.
  intros Hv Hu Hs. unfold script.
  pose proof (preamble_run readme version packages versioneer_cmds env) as Hrun.
  rewrite Hv, Hu, Hs in Hrun. cbn [negb] in Hrun.
  split; [|split].
  - intros ->. by apply bind_run_raise.
  - intros [text ->] Hno. apply bind_run_raise. rewrite Hrun.
    unfold get_cmdclass, outcome, trace. by rewrite Hno.
  - intros [text ->] [sdist_class Hsd] Hno. apply bind_run_raise. rewrite Hrun.
    unfold get_cmdclass, outcome, trace. rewrite Hsd.
    rewrite (bind_run_raise _ _ _ [] (ImportError "setuptools.command.test"))
      by (by rewrite import_run, Hno).
    by rewrite app_nil_r.
Qed.

Lemma script_fails_before_argv_witness :
  script ["setup.py"; "--version"] (Some "PyEMMA") "2.4" ["pyemma"] versioneer_cmds0 []
    env_no_test_command
  = (head_imports, Raise (ImportError "setuptools.command.test")) /\
  script ["setup.py"; "--version"] None "2.4" ["pyemma"] versioneer_cmds0 []
    env_no_test_command
  = (head_imports, Raise OSError).
Proof.
  split.
  - apply (script_fails_before_argv ["setup.py"; "--version"] (Some "PyEMMA") "2.4"
             ["pyemma"] versioneer_cmds0 [] env_no_test_command eq_refl eq_refl eq_refl);
      [by eexists|by eexists|reflexivity].
  - by apply (script_fails_before_argv ["setup.py"; "--version"] None "2.4"
                ["pyemma"] versioneer_cmds0 [] env_no_test_command eq_refl eq_refl eq_refl).
Defined.

(** ** The branch on the command line *)

(** X15.  The branch on [sys.argv] starts a subprocess exactly in a full
    build inside a checkout, and then only [git submodule update --init
    pybind11].  It can fail in no other way than through that subprocess:
    with [CalledProcessError] on a non-zero exit status and [OSError] when
    git cannot be started.  Whatever the metadata held before, the [+=] on
    [setup_requires] raises neither [KeyError] nor [TypeError], because the
    key has just been assigned a list. *)
Theorem configure_fails_only_in_submodule_update argv (md : gmap string pyval)
    (env : Env) :
  (ProcessRun submodule_argv ∈ trace (configure argv md) env <->
   metadata_only argv = false /\ path_exists env ".git" = true) /\
  (forall argv', ProcessRun argv' ∈ trace (configure argv md) env ->
     argv' = submodule_argv) /\
  (forall e, outcome (configure argv md) env = Raise e ->
     metadata_only argv = false /\ path_exists env ".git" = true /\
     match run_process env submodule_argv with
     | Exited rc => rc <> 0%Z /\ e = CalledProcessError rc submodule_argv
     | NotStarted => e = OSError
     end).
Proof.
  unfold trace, outcome. destruct (metadata_only argv) eqn:Hmeta.
  { rewrite (configure_metadata_only argv md env Hmeta). cbn [fst snd].
    split; [|split].
    - rewrite elem_of_nil. split; [done|]. by intros [? _].
    - intros argv'. by rewrite elem_of_nil.
    - done. }
  rewrite (configure_full_build argv md env Hmeta).
  destruct (path_exists env ".git"); cbn [fst snd].
  - split; [|split].
    + split; [done|]. intros _. rewrite !elem_of_cons. right. by left.
    + intros argv'. rewrite !elem_of_cons, elem_of_nil.
      by intros [|[[= ->]|]].
    + intros e. destruct (run_process env submodule_argv) as [rc|].
      * destruct (decide (rc = 0%Z)); [done|]. by intros [= <-].
      * by intros [= <-].
  - split; [|split].
    + rewrite elem_of_nil. split; [done|]. by intros [_ ?].
    + intros argv'. by rewrite elem_of_nil.
    + done.
Qed.

(** X16.  What the branch on [sys.argv] does to the metadata.  A
    metadata-only invocation leaves them as they are.  A full build sets
    exactly three keys and leaves every other key alone: [ext_modules] is
    the lazily built list, [package_data] is the fixed table, and
    [setup_requires] is the three build requirements, with the Cython
    requirement after them exactly inside a checkout.  What any of the three
    keys held before is discarded. *)
Theorem configure_sets_three_keys argv (md md' : gmap string pyval) (env : Env) :
  outcome (configure argv md) env = Ok md' ->
  if metadata_only argv then md' = md
  else
    md' !! "ext_modules" = Some VLazyExtensions /\
    md' !! "package_data" = Some (VDict build_package_data) /\
    md' !! "setup_requires"
    = Some (VList (build_requires
                     ++ if path_exists env ".git" then ["cython>=0.22"] else [])) /\
    forall key, key ∉ ["ext_modules"; "package_data"; "setup_requires"] ->
      md' !! key = md !! key.
Proof.
  unfold outcome. destruct (metadata_only argv) eqn:Hmeta.
  { rewrite (configure_metadata_only argv md env Hmeta). by intros [= <-]. }
  rewrite (configure_full_build argv md env Hmeta).
  assert (forall on_git,
    full_build_metadata on_git md !! "ext_modules" = Some VLazyExtensions /\
    full_build_metadata on_git md !! "package_data" = Some (VDict build_package_data) /\
    full_build_metadata on_git md !! "setup_requires"
    = Some (VList (build_requires ++ if on_git then ["cython>=0.22"] else [])) /\
    forall key, key ∉ ["ext_modules"; "package_data"; "setup_requires"] ->
      full_build_metadata on_git md !! key = md !! key) as Hfull.
  { intros on_git. unfold full_build_metadata. split; [|split; [|split]].
    - by rewrite lookup_insert_eq.
    - rewrite lookup_insert_ne by done.
      destruct on_git; [rewrite lookup_insert_ne by done|]; by rewrite lookup_insert_eq.
    - rewrite lookup_insert_ne by done. destruct on_git.
      + by rewrite lookup_insert_eq.
      + rewrite lookup_insert_ne by done. by rewrite lookup_insert_eq, app_nil_r.
    - intros key. rewrite !not_elem_of_cons. intros (H1 & H2 & H3 & _).
      rewrite lookup_insert_ne by done.
      destruct on_git; by rewrite !lookup_insert_ne by done. }
  destruct (path_exists env ".git"); cbn [snd].
  - destruct (run_process env submodule_argv) as [rc|]; [|done].
    destruct (decide (rc = 0%Z)); [|done]. intros [= <-]. apply Hfull.
  - intros [= <-]. apply Hfull.
Qed.

(** Installing from a checkout: the description and the install-time
    requirements survive, the three keys are set. *)
Lemma configure_sets_three_keys_witness :
  let md := <["setup_requires" := VStr "anything"]> (metadata0 "PyEMMA" "2.4" ["pyemma"]) in
  exists md',
    outcome (configure ["setup.py"; "install"] md) env_checkout = Ok md' /\
    md' !! "ext_modules" = Some VLazyExtensions /\
    md' !! "setup_requires"
    = Some (VList ["numpy>=1.7.0"; "scipy"; "mdtraj>=1.7.0"; "cython>=0.22"]) /\
    md' !! "long_description" = Some (VStr "PyEMMA").
Proof.
  intros md. eexists. split; [reflexivity|].
  destruct (configure_sets_three_keys ["setup.py"; "install"] md _ env_checkout eq_refl)
    as (Hext & _ & Hreq & Hrest).
  split; [exact Hext|]. split; [exact Hreq|].
  rewrite Hrest.
  - reflexivity.
  - rewrite !not_elem_of_cons. repeat split; [done..|apply not_elem_of_nil].
Defined.

(** ** The command line of the submodule update *)

Lemma split_from_cons (sep : string) c s :
  PyStr.split_from sep 0 (String c s)
  = if String.prefix sep (String c s)
    then EmptyString :: PyStr.split_from sep (pred (String.length sep)) s
    else match PyStr.split_from sep 0 s with
         | w :: ws => String c w :: ws
         | [] => [String c EmptyString]
         end.
Proof. reflexivity. Qed.

(** A string without a space is one field. *)
Lemma split_from_one_field a :
  PyStr.contains " " a = false -> PyStr.split_from " " 0 a = [a].
Proof.
  induction a as [|c a IH]; [done|].
  rewrite contains_cons. intros [Hp Ha]%orb_false_iff.
  by rewrite split_from_cons, Hp, (IH Ha).
Qed.

(** The first space ends the first field. *)
Lemma split_from_first_field a b :
  PyStr.contains " " a = false ->
  PyStr.split_from " " 0 (a +:+ " " +:+ b) = a :: PyStr.split_from " " 0 b.
Proof.
  induction a as [|c a IH].
  - intros _. rewrite append_nil_l, !append_cons, append_nil_l, split_from_cons.
    by rewrite prefix_cons, Ascii.eqb_refl, prefix_nil_l.
  - rewrite contains_cons, append_cons, split_from_cons, !prefix_cons, !prefix_nil_l.
    intros [Hp Ha]%orb_false_iff. by rewrite Hp, (IH Ha).
Qed.

Lemma format_submodule_cmd m :
  PyStr.format_field submodule_cmd "mod" m = "git submodule update --init " +:+ m.
Proof.
  unfold PyStr.format_field, submodule_cmd.
  change (PyStr.replace ("{" +:+ "mod" +:+ "}") m ?t)
    with (PyStr.replace_from "{mod}" m 0 t).
  rewrite <- (append_nil_r m) at 2.
  vm_compute. reflexivity.
Qed.

(** X17.  The command line of the submodule update is the template
    filled in and split at single spaces, so it is the four words [git
    submodule update --init] followed by the fields of the module name: a
    name without a space is handed to git as one argument, a name with a
    space becomes several arguments, and an empty name leaves an empty
    last argument.  The split never fails. *)
Theorem init_submodule_argv (m : string) :
  init_submodule m
  = check_call (["git"; "submodule"; "update"; "--init"] ++ PyStr.split_from " " 0 m) /\
  (PyStr.contains " " m = false -> PyStr.split_from " " 0 m = [m]) /\
  (forall a b, PyStr.contains " " a = false -> m = a +:+ " " +:+ b ->
     PyStr.split_from " " 0 m = a :: PyStr.split_from " " 0 b).
Proof.
  split; [|split].
  - unfold init_submodule. rewrite format_submodule_cmd.
    change (PyStr.split " " ?s) with (Some (PyStr.split_from " " 0 s)).
    cbv iota. f_equal.
    change ("git submodule update --init " +:+ m)
      with ("git" +:+ " " +:+ "submodule" +:+ " " +:+ "update" +:+ " " +:+ "--init"
              +:+ " " +:+ m).
    by rewrite !split_from_first_field by reflexivity.
  - apply split_from_one_field.
  - intros a b Ha ->. by apply split_from_first_field.
Qed.

(** ** The bundled headers *)

Lemma append_assoc (s t u : string) : (s +:+ t) +:+ u = s +:+ t +:+ u.
Proof. induction s as [|c s IH]; [done|]. by rewrite !append_cons, IH. Qed.

Lemma eqb_cons_nonempty c s t :
  t <> EmptyString -> String.eqb (String c (s +:+ t)) "/" = false.
Proof.
  intros Ht. cbn [String.eqb]. destruct (Ascii.eqb c "/"); [|done].
  destruct s as [|d s]; [|done]. rewrite append_nil_l. by destruct t.
Qed.

(** A path that ends in a non-empty word without a separator does not end
    in a separator. *)
Lemma endswith_sep_app s t :
  t <> EmptyString -> PyStr.endswith t "/" = false ->
  PyStr.endswith (s +:+ t) "/" = false.
Proof.
  intros Ht Hend. induction s as [|c s IH]; [done|].
  rewrite append_cons. cbn [PyStr.endswith]. by rewrite eqb_cons_nonempty, IH.
Qed.

Lemma head_upto_sep_no_sep p :
  PyStr.contains "/" p = false -> OsPath.head_upto_sep p = EmptyString.
Proof.
  destruct p as [|c p]; [done|].
  rewrite contains_cons, prefix_cons, prefix_nil_l, andb_true_r.
  intros [Hc Hp]%orb_false_iff. cbn [OsPath.head_upto_sep]. unfold OsPath.is_sep.
  by rewrite Ascii.eqb_sym, Hc, Hp.
Qed.

(** The two joins, for every directory. *)
Lemma join_pybind11_include (d : string) :
  OsPath.join d ["pybind11"; "include"]
  = (if String.eqb d "" || PyStr.endswith d "/" then d else d +:+ "/")
    +:+ "pybind11/include".
Proof.
  unfold OsPath.join. cbn [fold_left].
  set (sepd := if String.eqb d "" || PyStr.endswith d "/" then d else d +:+ "/").
  assert (OsPath.join2 d "pybind11" = sepd +:+ "pybind11") as ->.
  { unfold OsPath.join2, sepd. change (PyStr.startswith "pybind11" "/") with false.
    cbv iota. destruct (String.eqb d "" || PyStr.endswith d "/"); [done|].
    by rewrite append_assoc. }
  unfold OsPath.join2. change (PyStr.startswith "include" "/") with false. cbv iota.
  rewrite (endswith_sep_app sepd "pybind11") by done.
  assert (String.eqb (sepd +:+ "pybind11") "" = false) as ->.
  { by destruct sepd. }
  cbn [orb]. by rewrite !append_assoc.
Qed.

(** X18.  On a platform other than Windows, where [os.path] is
    [posixpath], the directory of the bundled headers is
    [pybind11/include] under the directory of the script file, not under
    the working directory: the directory of the script, a separator unless
    that directory is empty or already ends in one, and then
    [pybind11/include].  A script path without a separator gives the
    relative path [pybind11/include], and it is at this path that
    [extensions()] looks for the headers. *)
Theorem pybind_inc_under_script_dir (env : Env) :
  PyStr.startswith (platform env) "win" = false ->
  pybind_inc (script_file env)
  = (let d := OsPath.dirname (script_file env) in
     if String.eqb d "" || PyStr.endswith d "/" then d else d +:+ "/")
    +:+ "pybind11/include" /\
  (PyStr.contains "/" (script_file env) = false ->
   pybind_inc (script_file env) = "pybind11/include") /\
  (importable env "mdtraj" = true -> importable env "numpy" = true ->
   path_exists env
     ((let d := OsPath.dirname (script_file env) in
       if String.eqb d "" || PyStr.endswith d "/" then d else d +:+ "/")
      +:+ "pybind11/include") = false ->
   outcome extensions env = Raise AssertionError).
Proof.
  intros _. split; [apply join_pybind11_include|]. split.
  - intros Hno. unfold pybind_inc. rewrite join_pybind11_include. unfold OsPath.dirname.
    by rewrite (head_upto_sep_no_sep _ Hno).
  - intros Hmd Hnp Hpb. cbv zeta in Hpb. rewrite <- join_pybind11_include in Hpb.
    fold (pybind_inc (script_file env)) in Hpb.
    unfold outcome. by rewrite extensions_cases, Hmd, Hnp, Hpb.
Qed.

(** Started as [/src/PyEMMA/setup.py] on Linux, the script looks for
    [/src/PyEMMA/pybind11/include]. *)
Lemma pybind_inc_under_script_dir_witness :
  pybind_inc (script_file env_checkout_elsewhere) = "/src/PyEMMA/pybind11/include".
Proof.
  by destruct (pybind_inc_under_script_dir env_checkout_elsewhere eq_refl) as [-> _].
Defined.

(** ** What a build without the translator compiles and links *)

Lemma extensions_fallback_value (env : Env) exts :
  importable env "Cython.Build" = false ->
  outcome extensions env = Ok exts ->
  exts = if fst (detect_openmp env)
         then add_openmp (snd (detect_openmp env)) (use_pregenerated_c (assembled env))
         else use_pregenerated_c (assembled env).
Proof.
  intros Hcy. unfold outcome. rewrite extensions_cases, Hcy.
  destruct (importable env "mdtraj"); cbn [negb snd]; [|done].
  destruct (importable env "numpy"); cbn [negb snd]; [|done].
  destruct (path_exists env (pybind_inc (script_file env))); cbn [negb snd]; [|done].
  unfold outcome. rewrite build_descriptors_fallback. fold (assembled env).
  destruct (fst (detect_openmp env)); cbn [snd]; congruence.
Qed.

(** X19.  The build settings of the descriptors [extensions()] returns
    without the translator.  The constructor is given neither macros nor
    link arguments, so after the feature step every descriptor defines
    [USE_OPENMP] and nothing else when OpenMP was detected and nothing at
    all otherwise, links [-lgomp] exactly when OpenMP was detected and the
    runtime library is needed, and is compiled with [-fopenmp] exactly when
    OpenMP was detected.  Only the clustering module links a library:
    mdtraj's [theobald], named [libtheobald] exactly on a platform whose
    name starts with [win], found in mdtraj's library directory. *)
Theorem extensions_fallback_build_settings (env : Env) exts :
  importable env "Cython.Build" = false ->
  outcome extensions env = Ok exts ->
  let openmp_enabled := fst (detect_openmp env) in
  let needs_gomp := snd (detect_openmp env) in
  Forall (fun e =>
            define_macros e = (if openmp_enabled then [("USE_OPENMP", None)] else []) /\
            extra_link_args e = (if openmp_enabled && needs_gomp then ["-lgomp"] else []) /\
            ("-fopenmp" ∈ extra_compile_args e <-> openmp_enabled = true) /\
            "-O3" ∈ extra_compile_args e /\
            numpy_include env ∈ include_dirs e)
         exts /\
  map libraries exts
  = [[(if PyStr.startswith (platform env) "win" then "lib" else "") +:+ "theobald"];
     []; []; []] /\
  map library_dirs exts = [[mdtraj_lib_dir env]; []; []; []].
Proof.
  intros Hcy Hexts openmp_enabled needs_gomp.
  rewrite (extensions_fallback_value env exts Hcy Hexts).
  fold openmp_enabled needs_gomp.
  assert (forall l : list string, "-fopenmp" ∈ l ++ ["-fopenmp"]) as Hin.
  { intros l. apply elem_of_app. right. by apply list_elem_of_singleton. }
  destruct openmp_enabled, needs_gomp; (split; [|done]);
    repeat constructor; try done; try apply Hin;
    try (cbn [extra_compile_args set_sources new_Extension];
         rewrite !elem_of_cons, elem_of_nil; intros H;
         repeat destruct H as [H|H]; done).
Qed.

(** Installing from an unpacked archive on Windows, with OpenMP and no
    separate runtime library. *)
Lemma extensions_fallback_build_settings_witness :
  exists exts,
    outcome extensions env_sdist = Ok exts /\
    Forall (fun e => define_macros e = [("USE_OPENMP", None)] /\ extra_link_args e = [])
      exts /\
    map libraries exts = [["libtheobald"]; []; []; []].
Proof.
  eexists. split; [reflexivity|].
  destruct (extensions_fallback_build_settings env_sdist _ eq_refl eq_refl)
    as (Hall & Hlibs & _).
  split; [|exact Hlibs].
  apply (Forall_impl _ _ _ Hall). intros e (Hm & Hl & _). done.
Defined.
